(** * Mova AI: the Gemini service (src/services/gemini.ts)

    A shallow embedding of the request orchestration of the Gemini
    service: error classification ([handleGeminiError]), the chat and
    image-analysis model fallback loops, the bounded retry of
    [editImage] and the self-recursive retry of [generateImage].

    The asynchronous functions are sequential chains of awaits, so they
    are embedded in a small monad that threads the event trace (backend
    calls and delays) and carries JavaScript's completions: a returned
    value or a thrown error. *)

From Stdlib Require Import String Ascii List ZArith Bool Arith Lia.
From Stdlib Require DecimalString DecimalZ.
Import ListNotations.
Open Scope string_scope.
Open Scope list_scope.

(** ** JavaScript values and strings *)

(** The values that the [status] and [code] properties of a thrown
    object take in this program. *)
Inductive jsval : Type :=
| JUndefined
| JNum (n : Z)
| JStr (s : string).

(** JavaScript truthiness, as used by [||], [&&], [!] and [if]. *)
Definition truthy (v : jsval) : bool :=
  match v with
  | JUndefined => false
  | JNum n => negb (n =? 0)%Z
  | JStr s => negb (s =? "")
  end.

(** [a || b] on values. *)
Definition js_or (a b : jsval) : jsval := if truthy a then a else b.

(** [s || d] for a string property [s]; a missing property and the empty
    string are both falsy, so a missing string property is kept as [""]. *)
Definition str_or (s d : string) : string := if s =? "" then d else s.

(** [v === 429]: strict equality with the number 429. *)
Definition is_429 (v : jsval) : bool :=
  match v with
  | JNum n => (n =? 429)%Z
  | _ => false
  end.

(** [s.includes(sub)]: [sub] occurs in [s] as a contiguous substring. *)
Fixpoint includes (s sub : string) : bool :=
  if prefix sub s then true
  else match s with
       | EmptyString => false
       | String _ s' => includes s' sub
       end.

(** An optional string property ([text?: string]) tested by [if (x)]. *)
Definition truthy_text (t : option string) : bool :=
  match t with
  | Some s => negb (s =? "")
  | None => false
  end.

(** ** Errors *)

(** The [code] strings given to [GeminiError] by this module. *)
Inductive ErrorKind : Type :=
| AUTH_ERROR
| SAFETY_ERROR
| RATE_LIMIT
| NETWORK_ERROR
| EMPTY_RESPONSE
| NO_CANDIDATES
| UNKNOWN_ERROR.

Definition kind_code (k : ErrorKind) : string :=
  match k with
  | AUTH_ERROR => "AUTH_ERROR"
  | SAFETY_ERROR => "SAFETY_ERROR"
  | RATE_LIMIT => "RATE_LIMIT"
  | NETWORK_ERROR => "NETWORK_ERROR"
  | EMPTY_RESPONSE => "EMPTY_RESPONSE"
  | NO_CANDIDATES => "NO_CANDIDATES"
  | UNKNOWN_ERROR => "UNKNOWN_ERROR"
  end.

(** Thrown objects.  [RawError] is any error that is not a [GeminiError]:
    the failure of a backend call, with its optional [status] and [code],
    or the plain [Error] of [getGeminiModel].  [GeminiError] is the class
    of this module: [constructor(message, code?, details?)]. *)
#[warnings="-register-all"]
Inductive JsError : Type :=
| RawError (message : string) (status code : jsval)
| GeminiError (message : string) (code : ErrorKind) (details : option JsError).

Definition err_message (e : JsError) : string :=
  match e with
  | RawError m _ _ => m
  | GeminiError m _ _ => m
  end.

Definition err_status (e : JsError) : jsval :=
  match e with
  | RawError _ s _ => s
  | GeminiError _ _ _ => JUndefined
  end.

Definition err_code (e : JsError) : jsval :=
  match e with
  | RawError _ _ c => c
  | GeminiError _ k _ => JStr (kind_code k)
  end.

(** [error instanceof GeminiError], with the kind it carries. *)
Definition classified_kind (e : JsError) : option ErrorKind :=
  match e with
  | RawError _ _ _ => None
  | GeminiError _ k _ => Some k
  end.

(** The error that [handleGeminiError(error)] throws.  The function has
    return type [never]: every path ends in a [throw]. *)
Definition classify (error : JsError) : JsError :=
  let message := str_or (err_message error) "An unexpected error occurred" in
  let status := js_or (err_status error) (err_code error) in
  if includes message "API_KEY_INVALID" || includes message "API key not valid" then
    GeminiError "The provided API key is invalid. Please check your configuration."
                AUTH_ERROR None
  else if includes message "SAFETY" || includes message "blocked" then
    GeminiError "The request was blocked by safety filters. Please try a different prompt."
                SAFETY_ERROR None
  else if is_429 status || includes message "quota" then
    GeminiError "Rate limit exceeded. The system is currently busy. Please wait about 30-60 seconds before trying again."
                RATE_LIMIT None
  else if includes message "network" || includes message "fetch" then
    GeminiError "Network error. Please check your internet connection."
                NETWORK_ERROR None
  else
    GeminiError message UNKNOWN_ERROR (Some error).

(** ** The backend interface *)

(** [{ inlineData: { data, mimeType } }] *)
Record InlineData : Type := mkInlineData {
  data : string;
  mimeType : string
}.

(** A content part: [{ text?, inlineData? }]. *)
Record Part : Type := mkPart {
  part_text : option string;
  part_inlineData : option InlineData
}.

Definition text_part (t : string) : Part := mkPart (Some t) None.
Definition inline_part (d m : string) : Part := mkPart None (Some (mkInlineData d m)).

(** A result candidate: its [content] object, whose [parts] may be missing. *)
Record Candidate : Type := mkCandidate {
  content_parts : option (list Part)
}.

(** A backend response: its [text] and its [candidates], both optional. *)
Record Response : Type := mkResponse {
  resp_text : option string;
  resp_candidates : option (list Candidate)
}.

(** The two request shapes: [chat.sendMessage({ message })] and
    [ai.models.generateContent({ model, contents: { parts } })]. *)
Inductive Request : Type :=
| SendMessage (message : string)
| GenerateContent (parts : list Part).

(** What a backend call does: it resolves to a response or rejects. *)
Inductive Outcome : Type :=
| Responds (r : Response)
| Fails (e : JsError).

(** The observable events of an operation, in order of occurrence. *)
Inductive Event : Type :=
| EvCall (model : string) (req : Request)
| EvDelay (ms : Z).

Definition is_call (ev : Event) : bool :=
  match ev with
  | EvCall _ _ => true
  | EvDelay _ => false
  end.

(** Number of backend calls issued so far. *)
Definition issued (tr : list Event) : nat := length (filter is_call tr).

(** The delays of a trace, in order. *)
Fixpoint delays (tr : list Event) : list Z :=
  match tr with
  | [] => []
  | EvDelay ms :: tr' => ms :: delays tr'
  | EvCall _ _ :: tr' => delays tr'
  end.

(** The environment of the module: the credential [process.env.GEMINI_API_KEY]
    and the backend, which answers the [n]-th call (from 0) for a model and a
    request. *)
Record Env : Type := mkEnv {
  apiKey : option string;
  backend : nat -> string -> Request -> Outcome
}.

(** The client returned by [new GoogleGenAI({ apiKey })]. *)
Record Client : Type := mkClient {
  client_apiKey : string
}.

(** ** The monad of the asynchronous functions *)

(** How a computation completes.  [OutOfFuel] is only produced by the
    fuelled [while] loop of [editImage]. *)
Inductive Completion (A : Type) : Type :=
| Return (a : A)
| Throw (e : JsError)
| OutOfFuel.

Arguments Return {A} a.
Arguments Throw {A} e.
Arguments OutOfFuel {A}.

Definition M (A : Type) : Type := Env -> list Event -> Completion A * list Event.

Definition ret {A} (a : A) : M A := fun _ tr => (Return a, tr).

Definition throw {A} (e : JsError) : M A := fun _ tr => (Throw e, tr).

Definition bind {A B} (m : M A) (k : A -> M B) : M B :=
  fun env tr =>
    match m env tr with
    | (Return a, tr') => k a env tr'
    | (Throw e, tr') => (Throw e, tr')
    | (OutOfFuel, tr') => (OutOfFuel, tr')
    end.

(** [try { body } catch (error) { handler }] *)
Definition try_catch {A} (body : M A) (handler : JsError -> M A) : M A :=
  fun env tr =>
    match body env tr with
    | (Throw e, tr') => handler e env tr'
    | r => r
    end.

Notation "x <- m ;; k" := (bind m (fun x => k))
  (at level 61, m at next level, right associativity).
Notation "m ;;; k" := (bind m (fun _ => k))
  (at level 61, right associativity).
Notation "'try_' b 'catch_' h" := (try_catch b h)
  (at level 62, b at level 61, h at level 61).

(** [await delay(ms)] *)
Definition delay (ms : Z) : M unit :=
  fun _ tr => (Return tt, tr ++ [EvDelay ms]).

(** One awaited backend call. *)
Definition call_backend (model : string) (req : Request) : M Response :=
  fun env tr =>
    match backend env (issued tr) model req with
    | Responds r => (Return r, tr ++ [EvCall model req])
    | Fails e => (Throw e, tr ++ [EvCall model req])
    end.

(** [getGeminiModel]: throws a plain [Error] when the credential is falsy. *)
Definition getGeminiModel : M Client :=
  fun env tr =>
    match apiKey env with
    | Some k => if k =? "" then (Throw (RawError "GEMINI_API_KEY is not set" JUndefined JUndefined), tr)
                else (Return (mkClient k), tr)
    | None => (Throw (RawError "GEMINI_API_KEY is not set" JUndefined JUndefined), tr)
    end.

(** [handleGeminiError(error)]: never returns. *)
Definition handleGeminiError {A} (error : JsError) : M A := throw (classify error).

(** [handleGeminiError(lastError)] where [lastError] may still be [null]:
    reading [null.message] throws a [TypeError]. *)
Definition handleGeminiError_nullable {A} (lastError : option JsError) : M A :=
  match lastError with
  | Some error => handleGeminiError error
  | None => throw (RawError "Cannot read properties of null (reading 'message')" JUndefined JUndefined)
  end.

(** The retry test of [chatWithGemini], [analyzeImage] and [editImage]:
    [errMsg.includes("429") || errMsg.includes("quota") || errMsg.includes("Rate limit")]
    with [errMsg = error.message || ""]. *)
Definition isRateLimit (error : JsError) : bool :=
  let errMsg := str_or (err_message error) "" in
  includes errMsg "429" || includes errMsg "quota" || includes errMsg "Rate limit".

(** The retry test of [generateImageWithRetry]:
    [error.status === 429 || (error.message && (...includes...))]. *)
Definition isRateLimit_generate (error : JsError) : bool :=
  is_429 (err_status error)
  || (negb (err_message error =? "")
      && (includes (err_message error) "429"
          || includes (err_message error) "quota"
          || includes (err_message error) "Rate limit")).

(** One awaited call through the client [ai]. *)
Definition send (ai : Client) (model : string) (req : Request) : M Response :=
  call_backend model req.

(** ** chatWithGemini *)

Definition chat_models : list string :=
  ["gemini-3.1-pro-preview"; "gemini-3-flash-preview"; "gemini-flash-lite-latest"].

(** The [try] block of one loop iteration.  [ai.chats.create] issues no
    call; its constant system instruction is left out of the request. *)
Definition chat_attempt (model message : string) : M string :=
  ai <- getGeminiModel ;;
  response <- send ai model (SendMessage message) ;;
  match resp_text response with
  | Some t =>
      if negb (truthy_text (Some t)) then
        throw (GeminiError "The model returned an empty response." EMPTY_RESPONSE None)
      else ret t
  | None => throw (GeminiError "The model returned an empty response." EMPTY_RESPONSE None)
  end.

(** [for (let i = 0; i < models.length; i++)], with [rest] the models from
    index [i] on; the statement after the loop is the [[]] case. *)
Fixpoint chat_loop (message : string) (models rest : list string) (i : nat)
         (lastError : option JsError) : M string :=
  match rest with
  | [] => handleGeminiError_nullable lastError
  | model :: rest' =>
      try_ chat_attempt model message
      catch_ (fun error =>
        if negb (isRateLimit error) || (i =? length models - 1)%nat then
          handleGeminiError error
        else
          delay 1000 ;;; chat_loop message models rest' (S i) (Some error))
  end.

Definition chatWithGemini (message : string) (history : list jsval) : M string :=
  chat_loop message chat_models chat_models 0 None.

(** ** analyzeImage *)

Definition analyze_models : list string :=
  ["gemini-3-flash-preview"; "gemini-2.5-flash-image"].

Definition analyze_request (imageB64 prompt mimeType : string) : Request :=
  GenerateContent [inline_part imageB64 mimeType;
                   text_part (str_or prompt "Analyze this image in detail.")].

Definition analyze_attempt (model imageB64 prompt mimeType : string) : M string :=
  ai <- getGeminiModel ;;
  response <- send ai model (analyze_request imageB64 prompt mimeType) ;;
  match resp_text response with
  | Some t =>
      if negb (truthy_text (Some t)) then
        throw (GeminiError "The model returned an empty analysis." EMPTY_RESPONSE None)
      else ret t
  | None => throw (GeminiError "The model returned an empty analysis." EMPTY_RESPONSE None)
  end.

Fixpoint analyze_loop (imageB64 prompt mimeType : string) (models rest : list string)
         (i : nat) (lastError : option JsError) : M string :=
  match rest with
  | [] => handleGeminiError_nullable lastError
  | model :: rest' =>
      try_ analyze_attempt model imageB64 prompt mimeType
      catch_ (fun error =>
        if negb (isRateLimit error) || (i =? length models - 1)%nat then
          handleGeminiError error
        else
          delay 1000 ;;; analyze_loop imageB64 prompt mimeType models rest' (S i) (Some error))
  end.

Definition analyzeImage (imageB64 prompt mimeType : string) : M string :=
  analyze_loop imageB64 prompt mimeType analyze_models analyze_models 0 None.

(** ** Extraction of the image and the text of a response *)

(** One iteration of [for (const part of candidates[0].content.parts || [])]
    on the pair of the image variable ([null] is [None]) and [textResponse]. *)
Definition scan_part (acc : option string * string) (part : Part) : option string * string :=
  match part_inlineData part with
  | Some inline => (Some (data inline), snd acc)
  | None =>
      match part_text part with
      | Some t => if truthy_text (Some t) then (fst acc, String.append (snd acc) t) else acc
      | None => acc
      end
  end.

Definition scan_parts (parts : list Part) : option string * string :=
  fold_left scan_part parts (None, "").

(** [response.candidates || []], the zero-candidate check and the parts of
    [candidates[0]]. *)
Definition first_candidate_parts (response : Response) : M (list Part) :=
  let candidates := match resp_candidates response with Some cs => cs | None => [] end in
  match candidates with
  | [] => throw (GeminiError "No image was generated. The request might have been blocked."
                             NO_CANDIDATES None)
  | c :: _ => ret (match content_parts c with Some ps => ps | None => [] end)
  end.

(** ** editImage *)

Record EditResult : Type := mkEditResult {
  editedImageB64 : option string;
  textResponse : string
}.

Definition maxAttempts : nat := 2.

Definition edit_model : string := "gemini-2.5-flash-image".

Definition edit_request (imageB64 prompt mimeType : string) : Request :=
  GenerateContent [inline_part imageB64 mimeType; text_part prompt].

Definition edit_attempt (imageB64 prompt mimeType : string) : M EditResult :=
  ai <- getGeminiModel ;;
  response <- send ai edit_model (edit_request imageB64 prompt mimeType) ;;
  parts <- first_candidate_parts response ;;
  ret (mkEditResult (fst (scan_parts parts)) (snd (scan_parts parts))).

(** [while (attempts < maxAttempts)]; leaving the loop returns [undefined],
    here [None].  The loop is given fuel for its iterations. *)
Fixpoint editImage_while (fuel : nat) (imageB64 prompt mimeType : string)
         (attempts : nat) : M (option EditResult) :=
  if (attempts <? maxAttempts)%nat then
    match fuel with
    | O => fun _ tr => (OutOfFuel, tr)
    | S fuel' =>
        try_ (r <- edit_attempt imageB64 prompt mimeType ;; ret (Some r))
        catch_ (fun error =>
          let attempts := (attempts + 1)%nat in
          if isRateLimit error && (attempts <? maxAttempts)%nat then
            delay 2000 ;;; editImage_while fuel' imageB64 prompt mimeType attempts
          else
            handleGeminiError error)
    end
  else ret None.

Definition editImage (imageB64 prompt mimeType : string) : M (option EditResult) :=
  editImage_while maxAttempts imageB64 prompt mimeType 0.

(** ** generateImage *)

Record GenerateResult : Type := mkGenerateResult {
  generatedImageB64 : option string;
  generatedText : string
}.

Definition generate_model : string := "gemini-2.5-flash-image".

Definition generate_request (prompt : string) : Request :=
  GenerateContent [text_part prompt].

(** The self-recursive retry; [retries > 0] is the successor case. *)
Fixpoint generateImageWithRetry (ai : Client) (modelName prompt : string)
         (retries : nat) : M Response :=
  try_ send ai modelName (generate_request prompt)
  catch_ (fun error =>
    match retries with
    | S retries_minus_1 =>
        if isRateLimit_generate error then
          let delayTime := ((6 - Z.of_nat retries) * 2000)%Z in
          delay delayTime ;;;
          generateImageWithRetry ai modelName prompt retries_minus_1
        else throw error
    | O => throw error
    end).

Definition generateImage (prompt : string) : M GenerateResult :=
  try_ (ai <- getGeminiModel ;;
        response <- generateImageWithRetry ai generate_model prompt 5 ;;
        parts <- first_candidate_parts response ;;
        ret (mkGenerateResult (fst (scan_parts parts)) (snd (scan_parts parts))))
  catch_ (fun error => handleGeminiError error).

(** * Notions of the specification *)

(** ** Error classification in the words of the specification *)

(** The status that the classification tests: [error.status || error.code]. *)
Definition failure_status (e : JsError) : jsval := js_or (err_status e) (err_code e).

Definition err_details (e : JsError) : option JsError :=
  match e with
  | RawError _ _ _ => None
  | GeminiError _ _ d => d
  end.

(** Rules 1 to 5 of the classification, in their order, on a message and a
    status. *)
Definition kind_by_rules (message : string) (status : jsval) : ErrorKind :=
  if includes message "API_KEY_INVALID" || includes message "API key not valid" then AUTH_ERROR
  else if includes message "SAFETY" || includes message "blocked" then SAFETY_ERROR
  else if is_429 status || includes message "quota" then RATE_LIMIT
  else if includes message "network" || includes message "fetch" then NETWORK_ERROR
  else UNKNOWN_ERROR.

(** The classification of one failure as the specification states it: the
    kind follows the rules on the failure's message and status, and an
    UNKNOWN_ERROR carries the failure's original message. *)
Definition classified_by_rules (e : JsError) : Prop :=
  classified_kind (classify e) = Some (kind_by_rules (err_message e) (failure_status e)) /\
  (kind_by_rules (err_message e) (failure_status e) = UNKNOWN_ERROR ->
   err_message (classify e) = err_message e).

(** ** The credential *)

(** [apiKey] is truthy. *)
Definition has_credential (env : Env) : bool :=
  match apiKey env with
  | Some k => negb (k =? "")
  | None => false
  end.

(** ** The chat fallback policy in the words of the specification *)

(** What one attempt yields: the text of a response that has one, or a
    failure, which is the backend's failure or, for a response without text,
    the EMPTY_RESPONSE failure. *)
Definition chat_attempt_result (o : Outcome) : string + JsError :=
  match o with
  | Responds r =>
      if truthy_text (resp_text r) then
        inl (match resp_text r with Some t => t | None => "" end)
      else inr (GeminiError "The model returned an empty response." EMPTY_RESPONSE None)
  | Fails e => inr e
  end.

(** [FallbackRun env message candidates tr out]: trying the candidates in
    order from the trace [tr] ends in [out].  Each attempt issues one call.
    A success returns its text and stops; a failure that is not flagged as a
    rate limit, or any failure of the last candidate, is classified and
    raised; a failure flagged as a rate limit with candidates remaining is
    followed by the 1000 ms delay and the next candidate. *)
Inductive FallbackRun (env : Env) (message : string) :
  list string -> list Event -> Completion string * list Event -> Prop :=
| Run_success (model : string) (rest : list string) (tr : list Event) (t : string) :
    chat_attempt_result (backend env (issued tr) model (SendMessage message)) = inl t ->
    FallbackRun env message (model :: rest) tr
                (Return t, tr ++ [EvCall model (SendMessage message)])
| Run_raise (model : string) (rest : list string) (tr : list Event) (e : JsError) :
    chat_attempt_result (backend env (issued tr) model (SendMessage message)) = inr e ->
    isRateLimit e = false \/ rest = [] ->
    FallbackRun env message (model :: rest) tr
                (Throw (classify e), tr ++ [EvCall model (SendMessage message)])
| Run_fallback (model : string) (rest : list string) (tr : list Event) (e : JsError)
               (out : Completion string * list Event) :
    chat_attempt_result (backend env (issued tr) model (SendMessage message)) = inr e ->
    isRateLimit e = true ->
    rest <> [] ->
    FallbackRun env message rest
                (tr ++ [EvCall model (SendMessage message); EvDelay 1000]) out ->
    FallbackRun env message (model :: rest) tr out.

(** ** Extraction in the words of the specification *)

Definition carries_inline (p : Part) : bool :=
  match part_inlineData p with
  | Some _ => true
  | None => false
  end.

(** The text field of a part, empty when the part has none. *)
Definition text_field (p : Part) : string :=
  match part_text p with
  | Some t => t
  | None => ""
  end.

Fixpoint concat_all (l : list string) : string :=
  match l with
  | [] => ""
  | x :: l' => (x ++ concat_all l')%string
  end.

(** The text fields of the parts without inline payload, concatenated in
    order. *)
Definition text_of_parts (ps : list Part) : string :=
  concat_all (map text_field (filter (fun p => negb (carries_inline p)) ps)).

(** The payloads of the parts that carry one, in order. *)
Definition inline_payloads (ps : list Part) : list string :=
  flat_map (fun p => match part_inlineData p with
                     | Some inline => [data inline]
                     | None => []
                     end) ps.

(** The payload of the last part that carries one; [None] is [null]. *)
Definition image_of_parts (ps : list Part) : option string :=
  last (map Some (inline_payloads ps)) None.

(** The parts of a candidate: [content.parts || []]. *)
Definition candidate_parts (c : Candidate) : list Part :=
  match content_parts c with
  | Some ps => ps
  | None => []
  end.

(** ** One attempt of editImage *)

(** What one attempt of [editImage] yields from the outcome of its call. *)
Definition edit_attempt_result (o : Outcome) : EditResult + JsError :=
  match o with
  | Responds r =>
      match resp_candidates r with
      | Some (c :: _) =>
          inl (mkEditResult (fst (scan_parts (candidate_parts c)))
                            (snd (scan_parts (candidate_parts c))))
      | _ => inr (GeminiError "No image was generated. The request might have been blocked."
                              NO_CANDIDATES None)
      end
  | Fails e => inr e
  end.

(** ** The retry schedule of generateImage *)

(** The events of [k] retries that start with [retries] retries remaining:
    each failed call is followed by a delay of
    [(6 - remainingRetries) * 2000] ms. *)
Fixpoint retried (modelName prompt : string) (retries k : nat) : list Event :=
  match k with
  | O => []
  | S k' =>
      EvCall modelName (generate_request prompt)
      :: EvDelay ((6 - Z.of_nat retries) * 2000)
      :: retried modelName prompt (retries - 1) k'
  end.

(** What [generateImage] extracts from the response it obtained. *)
Definition generate_result (r : Response) : GenerateResult + JsError :=
  match resp_candidates r with
  | Some (c :: _) =>
      inl (mkGenerateResult (fst (scan_parts (candidate_parts c)))
                            (snd (scan_parts (candidate_parts c))))
  | _ => inr (GeminiError "No image was generated. The request might have been blocked."
                          NO_CANDIDATES None)
  end.

(** ** One attempt of analyzeImage *)

Definition analyze_attempt_result (o : Outcome) : string + JsError :=
  match o with
  | Responds r =>
      if truthy_text (resp_text r) then
        inl (match resp_text r with Some t => t | None => "" end)
      else inr (GeminiError "The model returned an empty analysis." EMPTY_RESPONSE None)
  | Fails e => inr e
  end.

(** ** The missing credential *)

(** The plain [Error] thrown by [getGeminiModel]. *)
Definition initialization_error : JsError :=
  RawError "GEMINI_API_KEY is not set" JUndefined JUndefined.

(** What the operations raise when the credential is missing. *)
Definition missing_credential_error : JsError :=
  GeminiError "GEMINI_API_KEY is not set" UNKNOWN_ERROR (Some initialization_error).

(** An error outside the taxonomy of classified errors: a thrown object
    that is not a [GeminiError]. *)
Definition outside_taxonomy {A} (c : Completion A) : Prop :=
  match c with
  | Throw e => classified_kind e = None
  | _ => False
  end.

(** ** Terminal outcomes *)

(** The completion is a returned value or a thrown classified error. *)
Definition settled {A} (c : Completion A) : bool :=
  match c with
  | Return _ => true
  | Throw (GeminiError _ _ _) => true
  | Throw (RawError _ _ _) => false
  | OutOfFuel => false
  end.

(** The same for a function that could also return [undefined]. *)
Definition settled_defined {A} (c : Completion (option A)) : bool :=
  match c with
  | Return (Some _) => true
  | Return None => false
  | Throw (GeminiError _ _ _) => true
  | Throw (RawError _ _ _) => false
  | OutOfFuel => false
  end.

(** ** The retry test in the words of the specification *)

(** The loose pattern match: the message contains "429", "quota" or
    "Rate limit". *)
Definition loose_rate_limit (message : string) : bool :=
  includes message "429" || includes message "quota" || includes message "Rate limit".

(** An operation that ended in [out] after its first call failed with [e]
    went on to a second call exactly when the loose pattern matches. *)
Definition retried_iff_loose {A} (out : Completion A * list Event) (e : JsError) : Prop :=
  (2 <= issued (snd out))%nat <-> loose_rate_limit (err_message e) = true.

(** * Example backends and responses *)

Definition rate_limited : JsError :=
  RawError "429 Too Many Requests" (JNum 429) JUndefined.

Definition text_response (t : string) : Response := mkResponse (Some t) None.

(** Fails the first [n] calls with the failure [e], then answers [r]. *)
Definition failing_with (e : JsError) (n : nat) (r : Response) : Env :=
  mkEnv (Some "key") (fun k _ _ => if (k <? n)%nat then Fails e else Responds r).

(** Fails the first [n] calls with a rate-limit failure, then answers [r]. *)
Definition failing_then (n : nat) (r : Response) : Env := failing_with rate_limited n r.

(** A failure that only its status marks as a rate limit. *)
Definition status_only_429 : JsError :=
  RawError "Too many requests" (JNum 429) JUndefined.

Definition blue_response : Response :=
  mkResponse None
    (Some [mkCandidate (Some [text_part "Here it is: "; inline_part "BLUE" "image/png";
                              text_part "a blue image."]);
           mkCandidate (Some [text_part "ignored"; inline_part "OTHER" "image/png"])]).

Definition no_candidates_response : Response := mkResponse None (Some []).

Definition empty_text_response : Response := mkResponse (Some "") None.

Definition both_part : Part := mkPart (Some "caption") (Some (mkInlineData "LATER" "image/png")).

Definition two_images_response : Response :=
  mkResponse None
    (Some [mkCandidate (Some [text_part "one "; inline_part "EARLIER" "image/png";
                              text_part "two"; both_part]);
           mkCandidate (Some [text_part "ignored"])]).

(** An environment without the credential. *)
Definition no_credential_env : Env :=
  mkEnv None (fun _ _ _ => Responds (text_response "hello")).

(** * The service without fallback (src/services/gemini.ts)

    The variant of the module in which every operation makes a single
    attempt: one [try] block around one call, and [handleGeminiError] in the
    [catch]. *)

Module Direct.

(** The error that [handleGeminiError(error)] throws in this variant. *)
Definition classify (error : JsError) : JsError :=
  let message := str_or (err_message error) "An unexpected error occurred" in
  let status := js_or (err_status error) (err_code error) in
  if includes message "API_KEY_INVALID" || includes message "API key not valid" then
    GeminiError "The provided API key is invalid. Please check your configuration."
                AUTH_ERROR None
  else if includes message "SAFETY" || includes message "blocked" then
    GeminiError "The request was blocked by safety filters. Please try a different prompt."
                SAFETY_ERROR None
  else if is_429 status || includes message "quota" then
    GeminiError "Rate limit exceeded. Please wait a moment before trying again."
                RATE_LIMIT None
  else if includes message "network" || includes message "fetch" then
    GeminiError "Network error. Please check your internet connection."
                NETWORK_ERROR None
  else
    GeminiError message UNKNOWN_ERROR (Some error).

Definition handleGeminiError {A} (error : JsError) : M A := throw (classify error).

Definition chatWithGemini (message : string) (history : list jsval) : M string :=
  try_ (ai <- getGeminiModel ;;
        response <- send ai "gemini-3.1-pro-preview" (SendMessage message) ;;
        match resp_text response with
        | Some t =>
            if negb (truthy_text (Some t)) then
              throw (GeminiError
                       "The model returned an empty response, possibly due to safety filters."
                       EMPTY_RESPONSE None)
            else ret t
        | None =>
            throw (GeminiError
                     "The model returned an empty response, possibly due to safety filters."
                     EMPTY_RESPONSE None)
        end)
  catch_ (fun error => handleGeminiError error).

Definition editImage (imageB64 prompt mimeType : string) : M EditResult :=
  try_ (ai <- getGeminiModel ;;
        response <- send ai "gemini-2.5-flash-image" (edit_request imageB64 prompt mimeType) ;;
        parts <- first_candidate_parts response ;;
        ret (mkEditResult (fst (scan_parts parts)) (snd (scan_parts parts))))
  catch_ (fun error => handleGeminiError error).

Definition analyzeImage (imageB64 prompt mimeType : string) : M string :=
  try_ (ai <- getGeminiModel ;;
        response <- send ai "gemini-3-flash-preview"
                         (analyze_request imageB64 prompt mimeType) ;;
        match resp_text response with
        | Some t =>
            if negb (truthy_text (Some t)) then
              throw (GeminiError "The model returned an empty analysis." EMPTY_RESPONSE None)
            else ret t
        | None => throw (GeminiError "The model returned an empty analysis." EMPTY_RESPONSE None)
        end)
  catch_ (fun error => handleGeminiError error).

End Direct.

(** Two completions that a caller cannot tell apart by value or by error
    kind: the same returned value, or thrown errors of the same kind. *)
Definition same_outcome {A} (c1 c2 : Completion A) : Prop :=
  match c1, c2 with
  | Return a1, Return a2 => a1 = a2
  | Throw e1, Throw e2 => classified_kind e1 = classified_kind e2
  | _, _ => False
  end.

(** The completion of a function that always returns a value, seen as one
    of a function that could also return [undefined]. *)
Definition returning_defined {A} (c : Completion A) : Completion (option A) :=
  match c with
  | Return a => Return (Some a)
  | Throw e => Throw e
  | OutOfFuel => OutOfFuel
  end.

(** * Notions for the traces and the errors of the operations *)

(** The events of trying the candidates [models] one after the other: one
    call per candidate, with the delay [ms] between two calls. *)
Fixpoint attempts_events (ms : Z) (req : Request) (models : list string) : list Event :=
  match models with
  | [] => []
  | model :: rest =>
      match rest with
      | [] => [EvCall model req]
      | _ :: _ => EvCall model req :: EvDelay ms :: attempts_events ms req rest
      end
  end.

(** The time spent waiting in a trace, in ms. *)
Definition total_delay (tr : list Event) : Z := fold_right Z.add 0%Z (delays tr).

(** The kinds that [handleGeminiError] gives to the errors it throws. *)
Definition surfaced (k : ErrorKind) : bool :=
  match k with
  | AUTH_ERROR | SAFETY_ERROR | RATE_LIMIT | NETWORK_ERROR | UNKNOWN_ERROR => true
  | EMPTY_RESPONSE | NO_CANDIDATES => false
  end.

(** A completion that, when it is a thrown error, is a [GeminiError] of a
    surfaced kind. *)
Definition raises_surfaced_kind {A} (c : Completion A) : bool :=
  match c with
  | Throw (GeminiError _ k _) => surfaced k
  | Throw (RawError _ _ _) => false
  | _ => true
  end.

(** * The chat interface (src/components/ChatInterface.tsx)

    The submit handler of the component, as a transformer of the component's
    state that runs one operation of the service.  One run of the handler is
    modelled, with no other event of the interface in between. *)

Inductive Role : Type :=
| user
| assistant.

(** [interface Message]; a missing [isError] is [false]. *)
Record Message : Type := mkMessage {
  msg_id : string;
  msg_role : Role;
  msg_content : string;
  msg_image : option string;
  msg_isError : bool;
  msg_errorCode : option string
}.

(** The state variables of the component. *)
Record UIState : Type := mkUIState {
  messages : list Message;
  input : string;
  isLoading : bool;
  selectedImage : option string;
  imageMimeType : string;
  isEditingMode : bool
}.

(** The three operations that the component imports from the service. *)
Record GeminiService : Type := mkGeminiService {
  svc_chatWithGemini : string -> list jsval -> M string;
  svc_analyzeImage : string -> string -> string -> M string;
  svc_editImage : string -> string -> string -> M (option EditResult)
}.

(** The service with fallback and retry. *)
Definition fallback_service : GeminiService :=
  mkGeminiService chatWithGemini analyzeImage editImage.

(** The service without fallback, whose [editImage] always returns a value. *)
Definition direct_service : GeminiService :=
  mkGeminiService Direct.chatWithGemini Direct.analyzeImage
                  (fun imageB64 prompt mimeType =>
                     r <- Direct.editImage imageB64 prompt mimeType ;; ret (Some r)).

(** [n.toString()] for an integer [n]. *)
Definition number_toString (n : Z) : string :=
  DecimalString.NilZero.string_of_int (Z.to_int n).

(** The template [`data:${mime};base64,${b64}`]. *)
Definition data_url (mime b64 : string) : string :=
  ("data:" ++ mime ++ ";base64," ++ b64)%string.

Definition greeting : Message :=
  mkMessage "1" assistant
            "Hello, I am **mova ai**. I am ready to assist you with complex reasoning, document analysis, and advanced image editing. How can I help you today?"
            None false None.

Definition initial_state : UIState :=
  mkUIState [greeting] "" false None "" false.

(** [!input.trim() && !selectedImage) || isLoading], the test that makes the
    handler return at once; [trim] is [String.prototype.trim]. *)
Definition submit_blocked (trim : string -> string) (st : UIState) : bool :=
  (negb (negb (trim (input st) =? "")) && negb (truthy_text (selectedImage st)))
  || isLoading st.

Definition userMessage (now : Z) (st : UIState) : Message :=
  mkMessage (number_toString now) user (input st)
            (match selectedImage st with
             | Some img => if truthy_text (Some img) then Some (data_url (imageMimeType st) img)
                           else None
             | None => None
             end)
            false None.

(** The [try] block up to the two local variables [responseText] and
    [editedImage]; the default [mimeType] and [history] of the operations
    are made explicit. *)
Definition request_reply (svc : GeminiService) (st : UIState) : M (string * option string) :=
  match selectedImage st with
  | Some img =>
      if truthy_text (Some img) then
        if isEditingMode st then
          result <- svc_editImage svc img (str_or (input st) "Enhance this image") "image/png" ;;
          match result with
          | Some r =>
              ret (str_or (textResponse r) "I've processed your image edit request.",
                   editedImageB64 r)
          | None =>
              throw (RawError "Cannot read properties of undefined (reading 'textResponse')"
                              JUndefined JUndefined)
          end
        else
          responseText <- svc_analyzeImage svc img (input st) "image/png" ;;
          ret (responseText, None)
      else
        responseText <- svc_chatWithGemini svc (input st) [] ;;
        ret (responseText, None)
  | None =>
      responseText <- svc_chatWithGemini svc (input st) [] ;;
      ret (responseText, None)
  end.

(** The rest of the [try] block: the assistant message and the image kept
    for a follow-up edit. *)
Definition show_reply (now : Z) (st : UIState) (responseText : string)
           (editedImage : option string) : UIState :=
  let assistantMessage :=
    mkMessage (number_toString (now + 1)) assistant responseText
              (match editedImage with
               | Some img => if truthy_text (Some img) then Some (data_url "image/png" img)
                             else None
               | None => None
               end)
              false None in
  let shown := messages st ++ [assistantMessage] in
  match editedImage with
  | Some img =>
      if truthy_text (Some img) then
        mkUIState shown (input st) (isLoading st) (Some img) "image/png" (isEditingMode st)
      else if negb (isEditingMode st) then
        mkUIState shown (input st) (isLoading st) None (imageMimeType st) (isEditingMode st)
      else
        mkUIState shown (input st) (isLoading st) (selectedImage st) (imageMimeType st)
                  (isEditingMode st)
  | None =>
      if negb (isEditingMode st) then
        mkUIState shown (input st) (isLoading st) None (imageMimeType st) (isEditingMode st)
      else
        mkUIState shown (input st) (isLoading st) (selectedImage st) (imageMimeType st)
                  (isEditingMode st)
  end.

(** The [catch] block. *)
Definition show_error (now : Z) (st : UIState) (error : JsError) : UIState :=
  let shown :=
    match error with
    | GeminiError message code _ => (message, str_or (kind_code code) "GEMINI_ERROR")
    | RawError _ _ _ =>
        ("I encountered an unexpected error processing your request.", "UNKNOWN_ERROR")
    end in
  mkUIState (messages st ++ [mkMessage (number_toString now) assistant (fst shown) None true
                                      (Some (snd shown))])
            (input st) (isLoading st) (selectedImage st) (imageMimeType st) (isEditingMode st).

(** [handleSubmit]; [t_submit] and [t_done] are the values of [Date.now()]
    when the user message and when the assistant message are built. *)
Definition handleSubmit (trim : string -> string) (svc : GeminiService)
           (t_submit t_done : Z) (st : UIState) : M UIState :=
  if submit_blocked trim st then ret st
  else
    let pending :=
      mkUIState (messages st ++ [userMessage t_submit st]) "" true
                (selectedImage st) (imageMimeType st) (isEditingMode st) in
    after <- (try_ (reply <- request_reply svc st ;;
                    ret (show_reply t_done pending (fst reply) (snd reply)))
              catch_ (fun error => ret (show_error t_done pending error))) ;;
    ret (mkUIState (messages after) (input after) false (selectedImage after)
                   (imageMimeType after) (isEditingMode after)).

(** A completion that is a returned value or a thrown [GeminiError] of a
    surfaced kind. *)
Definition answers {A} (c : Completion A) : Prop :=
  (exists a, c = Return a) \/
  (exists message code details,
      c = Throw (GeminiError message code details) /\ surfaced code = true).

(** The same, where the returned value is not [undefined]. *)
Definition answers_defined {A} (c : Completion (option A)) : Prop :=
  (exists a, c = Return (Some a)) \/
  (exists message code details,
      c = Throw (GeminiError message code details) /\ surfaced code = true).

(** [onChange={(e) => setInput(e.target.value)}] *)
Definition setInput (value : string) (st : UIState) : UIState :=
  mkUIState (messages st) value (isLoading st) (selectedImage st) (imageMimeType st)
            (isEditingMode st).

(** A state with an image attached, in editing mode. *)
Definition editing_state : UIState :=
  mkUIState [greeting] "make it blue" false (Some "img") "image/jpeg" true.

(** [trim] on the strings used as examples, which have no white space at
    their ends. *)
Definition no_trim (s : string) : string := s.

(** ** The other handlers of the component *)

(** The text after the first comma of [s]; [None] when [s] has no comma. *)
Fixpoint after_comma (s : string) : option string :=
  match s with
  | EmptyString => None
  | String c s' => if Ascii.eqb c "," then Some s' else after_comma s'
  end.

(** The text before the first comma of [s]. *)
Fixpoint until_comma (s : string) : string :=
  match s with
  | EmptyString => EmptyString
  | String c s' => if Ascii.eqb c "," then EmptyString else String c (until_comma s')
  end.

(** [s.split(',')[1]]; [undefined] is [None]. *)
Definition split_comma_second (s : string) : option string :=
  option_map until_comma (after_comma s).

(** [handleImageUpload] once the reader has loaded the chosen file: [file]
    is the file's type and the data URL read from it, or [None] when no file
    was chosen. *)
Definition handleImageUpload (file : option (string * string)) (st : UIState) : UIState :=
  match file with
  | Some (file_type, result) =>
      mkUIState (messages st) (input st) (isLoading st) (split_comma_second result)
                file_type (isEditingMode st)
  | None => st
  end.

(** What the user does between two submissions.  The two buttons on the
    image preview exist only while an image is attached. *)
Inductive UIEvent : Type :=
| Typed (value : string)
| Uploaded (file : option (string * string))
| ImageRemoved
| ModeToggled
| Submitted (t_submit t_done : Z).

Definition handle_event (trim : string -> string) (svc : GeminiService) (ev : UIEvent)
           (st : UIState) : M UIState :=
  match ev with
  | Typed value => ret (setInput value st)
  | Uploaded file => ret (handleImageUpload file st)
  | ImageRemoved =>
      if truthy_text (selectedImage st) then
        ret (mkUIState (messages st) (input st) (isLoading st) None (imageMimeType st)
                       (isEditingMode st))
      else ret st
  | ModeToggled =>
      if truthy_text (selectedImage st) then
        ret (mkUIState (messages st) (input st) (isLoading st) (selectedImage st)
                       (imageMimeType st) (negb (isEditingMode st)))
      else ret st
  | Submitted t_submit t_done => handleSubmit trim svc t_submit t_done st
  end.

(** The events of a session, each one handled to its end before the next. *)
Fixpoint run_events (trim : string -> string) (svc : GeminiService) (evs : list UIEvent)
         (st : UIState) : M UIState :=
  match evs with
  | [] => ret st
  | ev :: evs' => st' <- handle_event trim svc ev st ;; run_events trim svc evs' st'
  end.

(** A list of messages made of turns: a user message, then an assistant
    message. *)
Fixpoint turns (ms : list Message) : bool :=
  match ms with
  | [] => true
  | u :: ms' =>
      match ms' with
      | [] => false
      | a :: rest =>
          match msg_role u, msg_role a with
          | user, assistant => turns rest
          | _, _ => false
          end
      end
  end.

(** A state with an image attached, in analysis mode. *)
Definition analysis_state : UIState :=
  mkUIState [greeting] "what is this?" false (Some "img") "image/jpeg" false.

(** * Properties *)

(** ** Strings *)

Lemma prefix_append (p s : string) :
  prefix p s = true <-> exists b, s = (p ++ b)%string.
Proof.
  revert s; induction p as [|c p IH]; intros s.
  - destruct s; simpl; (split; [intros _; eexists; reflexivity | reflexivity]).
  - destruct s as [|d s]; simpl.
    + split; [discriminate | intros [b Hb]; discriminate].
    + destruct (ascii_dec c d) as [->|Hcd].
      * rewrite IH. split; intros [b Hb]; exists b; [now rewrite Hb | now injection Hb].
      * split; [discriminate | intros [b Hb]; injection Hb; intros; subst; contradiction].
Qed.

Lemma includes_unfold (s sub : string) :
  includes s sub =
  if prefix sub s then true
  else match s with
       | EmptyString => false
       | String _ s' => includes s' sub
       end.
Proof. destruct s; reflexivity. Qed.

(** [includes] is the substring test of JavaScript. *)
Lemma includes_spec (s sub : string) :
  includes s sub = true <-> exists a b, s = (a ++ sub ++ b)%string.
Proof.
  induction s as [|c s IH]; rewrite includes_unfold.
  - destruct (prefix sub "") eqn:Hp.
    + split; [intros _ | reflexivity].
      apply prefix_append in Hp as [b Hb]. now exists "", b.
    + split; [discriminate | intros [a [b Hab]]].
      destruct a; [|discriminate]. simpl in Hab.
      assert (prefix sub "" = true) by (apply prefix_append; now exists b).
      congruence.
  - destruct (prefix sub (String c s)) eqn:Hp.
    + split; [intros _ | reflexivity].
      apply prefix_append in Hp as [b Hb]. now exists "", b.
    + rewrite IH. split; intros [a [b Hab]].
      * exists (String c a), b. simpl. now rewrite Hab.
      * destruct a as [|c' a].
        -- simpl in Hab.
           assert (prefix sub (String c s) = true) by (apply prefix_append; now exists b).
           congruence.
        -- simpl in Hab. injection Hab; intros; subst. now exists a, b.
Qed.

Lemma str_or_nonempty (s d : string) : s <> "" -> str_or s d = s.
Proof.
  intros Hs. unfold str_or. destruct (String.eqb_spec s ""); [contradiction | reflexivity].
Qed.

Lemma str_or_empty_default (s : string) : str_or s "" = s.
Proof.
  unfold str_or. destruct (String.eqb_spec s ""); congruence.
Qed.

(** None of the markers occurs in the empty string or in the default
    message, so the markers can be looked up in the failure's own message. *)
Lemma includes_default_message (s sub : string) :
  includes "" sub = false ->
  includes "An unexpected error occurred" sub = false ->
  includes (str_or s "An unexpected error occurred") sub = includes s sub.
Proof.
  intros H0 Hd. unfold str_or. destruct (String.eqb_spec s "") as [->|_]; congruence.
Qed.

(** ** Error classification *)

Lemma classify_kind_by_rules (e : JsError) :
  classified_kind (classify e) = Some (kind_by_rules (err_message e) (failure_status e)).
Proof.
  unfold classify, kind_by_rules, failure_status.
  repeat rewrite (includes_default_message (err_message e)) by reflexivity.
  repeat match goal with
         | |- context [if ?b then _ else _] => destruct b
         end; reflexivity.
Qed.

Lemma classify_unknown (e : JsError) :
  kind_by_rules (err_message e) (failure_status e) = UNKNOWN_ERROR ->
  classify e = GeminiError (str_or (err_message e) "An unexpected error occurred")
                           UNKNOWN_ERROR (Some e).
Proof.
  unfold classify, kind_by_rules, failure_status.
  repeat rewrite (includes_default_message (err_message e)) by reflexivity.
  repeat match goal with
         | |- context [if ?b then _ else _] => destruct b
         end; (discriminate || reflexivity).
Qed.

(** C2, as stated, fails on a failure whose message is empty: the rules give
    UNKNOWN_ERROR, and the error raised carries the default text, not the
    original (empty) message. *)
Lemma classify_empty_message_counterexample :
  kind_by_rules "" JUndefined = UNKNOWN_ERROR /\
  err_message (classify (RawError "" JUndefined JUndefined)) = "An unexpected error occurred" /\
  ~ classified_by_rules (RawError "" JUndefined JUndefined).
Proof.
  split; [reflexivity|]. split; [reflexivity|].
  intros [_ H]. specialize (H eq_refl). discriminate H.
Qed.

(** C2 (amended): for every failure the classification yields exactly one
    kind, decided in this order on the failure's message and status (the
    [status] property, or [code] when the status is falsy): an invalid-API-key
    marker gives AUTH_ERROR; else a safety/blocked marker gives SAFETY_ERROR;
    else a status equal to 429 or a quota mention gives RATE_LIMIT; else a
    network/fetch marker gives NETWORK_ERROR; else UNKNOWN_ERROR, which carries
    the original failure and its message, or the text "An unexpected error
    occurred" when that message is empty. *)
Theorem classify_ordered_rules (e : JsError) :
  classified_kind (classify e) = Some (kind_by_rules (err_message e) (failure_status e)) /\
  (kind_by_rules (err_message e) (failure_status e) = UNKNOWN_ERROR ->
   err_details (classify e) = Some e /\
   err_message (classify e) =
     if err_message e =? "" then "An unexpected error occurred" else err_message e).
Proof.
  split; [apply classify_kind_by_rules|].
  intros H. rewrite (classify_unknown e H). split; reflexivity.
Qed.

(** ** Running the monad *)

Lemma getGeminiModel_with_credential (env : Env) (tr : list Event) :
  has_credential env = true ->
  exists ai, getGeminiModel env tr = (Return ai, tr).
Proof.
  unfold has_credential, getGeminiModel. destruct (apiKey env) as [k|]; [|discriminate].
  destruct (k =? ""); [discriminate|]. intros _. now eexists.
Qed.

Lemma getGeminiModel_without_credential (env : Env) (tr : list Event) :
  has_credential env = false ->
  getGeminiModel env tr = (Throw (RawError "GEMINI_API_KEY is not set" JUndefined JUndefined), tr).
Proof.
  unfold has_credential, getGeminiModel. destruct (apiKey env) as [k|]; [|reflexivity].
  destruct (k =? ""); [reflexivity | discriminate].
Qed.

Lemma issued_app (tr1 tr2 : list Event) : issued (tr1 ++ tr2) = (issued tr1 + issued tr2)%nat.
Proof. unfold issued. now rewrite filter_app, length_app. Qed.

Lemma issued_call_delay (tr : list Event) (model : string) (req : Request) (ms : Z) :
  issued (tr ++ [EvCall model req; EvDelay ms]) = S (issued tr).
Proof.
  rewrite issued_app. change (issued [EvCall model req; EvDelay ms]) with 1%nat. lia.
Qed.

(** ** chatWithGemini: the fallback loop *)

Lemma chat_attempt_run (env : Env) (model message : string) (tr : list Event) :
  has_credential env = true ->
  chat_attempt model message env tr =
  match chat_attempt_result (backend env (issued tr) model (SendMessage message)) with
  | inl t => (Return t, tr ++ [EvCall model (SendMessage message)])
  | inr e => (Throw e, tr ++ [EvCall model (SendMessage message)])
  end.
Proof.
  intros Hk. destruct (getGeminiModel_with_credential env tr Hk) as [ai Hai].
  unfold chat_attempt, bind, send, call_backend, chat_attempt_result. rewrite Hai.
  destruct (backend env (issued tr) model (SendMessage message)) as [r|e]; [|reflexivity].
  destruct (resp_text r) as [t|]; [|reflexivity].
  simpl. destruct (t =? ""); reflexivity.
Qed.

Lemma chat_loop_run (env : Env) (message : string) (models : list string) :
  has_credential env = true ->
  forall (rest : list string) (i : nat) (lastError : option JsError) (tr : list Event),
    rest <> [] ->
    (i + length rest = length models)%nat ->
    FallbackRun env message rest tr (chat_loop message models rest i lastError env tr).
Proof.
  intros Hk rest. induction rest as [|model rest' IH]; intros i lastError tr Hne Hlen.
  - contradiction.
  - simpl in Hlen. simpl. unfold try_catch. rewrite (chat_attempt_run env model message tr Hk).
    destruct (chat_attempt_result _) as [t|e] eqn:Hres.
    + now apply Run_success.
    + destruct (isRateLimit e) eqn:Hrl; simpl.
      * destruct (Nat.eqb_spec i (length models - 1)) as [Hlast|Hmore].
        -- apply Run_raise; [assumption|]. right.
           destruct rest'; [reflexivity | simpl in Hlen; lia].
        -- assert (Hrest : rest' <> []) by (intros ->; simpl in Hlen; lia).
           apply (Run_fallback env message model rest' tr e); try assumption.
           unfold bind, delay. rewrite <- app_assoc. simpl.
           apply IH; [assumption | lia].
      * apply Run_raise; [assumption | now left].
Qed.

Lemma FallbackRun_functional (env : Env) (message : string) (models : list string)
      (tr : list Event) (out1 out2 : Completion string * list Event) :
  FallbackRun env message models tr out1 ->
  FallbackRun env message models tr out2 ->
  out1 = out2.
Proof.
  intros H1; revert out2.
  induction H1 as [model rest tr t Ht | model rest tr e He Hstop
                   | model rest tr e out He Hrl Hrest _ IH];
    intros out2 H2; inversion H2; subst; try congruence.
  - destruct Hstop; congruence.
  - match goal with H : _ \/ _ |- _ => destruct H; congruence end.
  - apply IH. congruence.
Qed.

(** C1: with the credential present, for every backend the chat operation
    tries the candidates in their fixed order, one call per attempt; a
    failure not flagged as a rate limit, or any failure of the last candidate,
    is classified and raised at once; a rate-limit failure with candidates
    remaining is followed by the flat 1000 ms delay and the next candidate;
    the first success returns that call's text and ends the run.  In
    particular two rate-limit failures followed by a success give exactly
    three calls with one 1000 ms delay between them and the third call's
    text. *)
Theorem chat_fallback_policy (message : string) (history : list jsval) (env : Env) :
  has_credential env = true ->
  (forall tr, FallbackRun env message chat_models tr (chatWithGemini message history env tr)) /\
  (forall e1 e2 r t,
      backend env 0 "gemini-3.1-pro-preview" (SendMessage message) = Fails e1 ->
      isRateLimit e1 = true ->
      backend env 1 "gemini-3-flash-preview" (SendMessage message) = Fails e2 ->
      isRateLimit e2 = true ->
      backend env 2 "gemini-flash-lite-latest" (SendMessage message) = Responds r ->
      resp_text r = Some t -> t <> "" ->
      chatWithGemini message history env [] =
      (Return t, [EvCall "gemini-3.1-pro-preview" (SendMessage message); EvDelay 1000;
                  EvCall "gemini-3-flash-preview" (SendMessage message); EvDelay 1000;
                  EvCall "gemini-flash-lite-latest" (SendMessage message)])).
Proof.
  intros Hk. split.
  - intros tr. unfold chatWithGemini. apply chat_loop_run; [assumption | discriminate | reflexivity].
  - intros e1 e2 r t H1 Hrl1 H2 Hrl2 H3 Ht Hne.
    unfold chatWithGemini, chat_models. simpl chat_loop. unfold try_catch.
    rewrite (chat_attempt_run env _ message [] Hk). cbn [issued filter is_call length app]. rewrite H1. simpl.
    rewrite Hrl1. simpl. unfold bind at 1. unfold delay at 1.
    rewrite (chat_attempt_run env _ message _ Hk). cbn [issued filter is_call length app]. rewrite H2. simpl.
    rewrite Hrl2. simpl. unfold bind at 1. unfold delay at 1.
    rewrite (chat_attempt_run env _ message _ Hk). cbn [issued filter is_call length app]. rewrite H3.
    unfold chat_attempt_result. rewrite Ht. simpl.
    destruct (String.eqb_spec t ""); [contradiction | reflexivity].
Qed.

(** The policy on a backend that fails twice with a rate limit and then
    answers "hello". *)
Lemma chat_fallback_policy_witness :
  chatWithGemini "hi" [] (failing_then 2 (text_response "hello")) [] =
  (Return "hello", [EvCall "gemini-3.1-pro-preview" (SendMessage "hi"); EvDelay 1000;
                    EvCall "gemini-3-flash-preview" (SendMessage "hi"); EvDelay 1000;
                    EvCall "gemini-flash-lite-latest" (SendMessage "hi")]).
Proof.
  apply (proj2 (chat_fallback_policy "hi" [] (failing_then 2 (text_response "hello")) eq_refl)
               rate_limited rate_limited (text_response "hello") "hello");
    try reflexivity.
  discriminate.
Defined.

(** ** Extraction of image and text *)

Lemma append_empty_r (s : string) : (s ++ "")%string = s.
Proof. induction s as [|c s IH]; simpl; [reflexivity | now rewrite IH]. Qed.

Lemma append_assoc (a b c : string) : ((a ++ b) ++ c)%string = (a ++ (b ++ c))%string.
Proof. induction a as [|x a IH]; simpl; [reflexivity | now rewrite IH]. Qed.

Lemma last_cons_default {A} (l : list A) (x d : A) : last (x :: l) d = last l x.
Proof.
  revert x d. induction l as [|y l IH]; intros x d; [reflexivity|].
  change (last (x :: y :: l) d) with (last (y :: l) d). now rewrite !IH.
Qed.

Lemma text_of_parts_cons (p : Part) (ps : list Part) :
  text_of_parts (p :: ps) =
  if carries_inline p then text_of_parts ps
  else (text_field p ++ text_of_parts ps)%string.
Proof. unfold text_of_parts. simpl. now destruct (carries_inline p). Qed.

Lemma inline_payloads_cons (p : Part) (ps : list Part) :
  inline_payloads (p :: ps) =
  match part_inlineData p with
  | Some inline => data inline :: inline_payloads ps
  | None => inline_payloads ps
  end.
Proof. unfold inline_payloads. simpl. now destruct (part_inlineData p). Qed.

Lemma scan_parts_from (ps : list Part) (img : option string) (txt : string) :
  fold_left scan_part ps (img, txt) =
  (last (map Some (inline_payloads ps)) img, (txt ++ text_of_parts ps)%string).
Proof.
  revert img txt. induction ps as [|p ps IH]; intros img txt.
  - simpl. now rewrite append_empty_r.
  - change (fold_left scan_part (p :: ps) (img, txt))
      with (fold_left scan_part ps (scan_part (img, txt) p)).
    rewrite text_of_parts_cons, inline_payloads_cons.
    unfold scan_part, carries_inline, text_field.
    destruct (part_inlineData p) as [inline|].
    + cbn [fst snd]. rewrite IH, map_cons, last_cons_default. reflexivity.
    + destruct (part_text p) as [t|]; [|now rewrite IH].
      cbn [truthy_text fst snd].
      destruct (String.eqb_spec t "") as [->|_]; cbn [negb]; rewrite IH; [reflexivity|].
      now rewrite append_assoc.
Qed.

Lemma scan_parts_spec (ps : list Part) :
  scan_parts ps = (image_of_parts ps, text_of_parts ps).
Proof. unfold scan_parts. now rewrite scan_parts_from. Qed.

Lemma image_of_parts_none (ps : list Part) :
  forallb (fun p => negb (carries_inline p)) ps = true -> image_of_parts ps = None.
Proof.
  unfold image_of_parts, inline_payloads, carries_inline.
  induction ps as [|p ps IH]; [reflexivity|]. simpl.
  destruct (part_inlineData p); [discriminate|]. simpl. exact IH.
Qed.

Lemma image_of_parts_last (ps : list Part) (p : Part) (inline : InlineData) :
  part_inlineData p = Some inline ->
  image_of_parts (ps ++ [p]) = Some (data inline) /\
  text_of_parts (ps ++ [p]) = text_of_parts ps.
Proof.
  intros Hp. unfold image_of_parts, text_of_parts, inline_payloads, carries_inline.
  rewrite flat_map_app, filter_app, map_app. simpl. rewrite Hp. simpl.
  rewrite last_last, app_nil_r. split; reflexivity.
Qed.

(** ** editImage: the two-attempt loop *)

Lemma edit_attempt_run (env : Env) (imageB64 prompt mimeType : string) (tr : list Event) :
  has_credential env = true ->
  edit_attempt imageB64 prompt mimeType env tr =
  match edit_attempt_result
          (backend env (issued tr) edit_model (edit_request imageB64 prompt mimeType)) with
  | inl v => (Return v, tr ++ [EvCall edit_model (edit_request imageB64 prompt mimeType)])
  | inr e => (Throw e, tr ++ [EvCall edit_model (edit_request imageB64 prompt mimeType)])
  end.
Proof.
  intros Hk. destruct (getGeminiModel_with_credential env tr Hk) as [ai Hai].
  unfold edit_attempt, bind, send, call_backend, edit_attempt_result. rewrite Hai.
  destruct (backend env (issued tr) edit_model _) as [r|e]; [|reflexivity].
  unfold first_candidate_parts, candidate_parts.
  destruct (resp_candidates r) as [[|c cs]|]; reflexivity.
Qed.

Lemma editImage_while_step (fuel : nat) (imageB64 prompt mimeType : string) (attempts : nat) :
  editImage_while (S fuel) imageB64 prompt mimeType attempts =
  if (attempts <? maxAttempts)%nat then
    try_ (r <- edit_attempt imageB64 prompt mimeType ;; ret (Some r))
    catch_ (fun error =>
      if isRateLimit error && (attempts + 1 <? maxAttempts)%nat then
        delay 2000 ;;; editImage_while fuel imageB64 prompt mimeType (attempts + 1)
      else
        handleGeminiError error)
  else ret None.
Proof. reflexivity. Qed.

(** The whole behaviour of [editImage] from the outcomes of its first two
    calls. *)
Lemma editImage_run (env : Env) (imageB64 prompt mimeType : string) (tr : list Event) :
  has_credential env = true ->
  editImage imageB64 prompt mimeType env tr =
  let req := edit_request imageB64 prompt mimeType in
  match edit_attempt_result (backend env (issued tr) edit_model req) with
  | inl v => (Return (Some v), tr ++ [EvCall edit_model req])
  | inr e =>
      if isRateLimit e then
        match edit_attempt_result (backend env (S (issued tr)) edit_model req) with
        | inl v => (Return (Some v),
                    tr ++ [EvCall edit_model req; EvDelay 2000; EvCall edit_model req])
        | inr e2 => (Throw (classify e2),
                     tr ++ [EvCall edit_model req; EvDelay 2000; EvCall edit_model req])
        end
      else (Throw (classify e), tr ++ [EvCall edit_model req])
  end.
Proof.
  intros Hk. unfold editImage. change maxAttempts with 2%nat at 1.
  rewrite editImage_while_step. change (0 <? maxAttempts)%nat with true.
  change (0 + 1 <? maxAttempts)%nat with true. cbv iota.
  unfold try_catch, bind at 1. rewrite (edit_attempt_run env _ _ _ tr Hk).
  cbv zeta. destruct (edit_attempt_result _) as [v|e]; [reflexivity|].
  rewrite andb_true_r. destruct (isRateLimit e); [|reflexivity].
  unfold bind at 1, delay at 1. rewrite editImage_while_step.
  change (0 + 1 <? maxAttempts)%nat with true.
  change (0 + 1 + 1 <? maxAttempts)%nat with false. cbv iota.
  unfold try_catch, bind at 1. rewrite (edit_attempt_run env _ _ _ _ Hk).
  rewrite <- app_assoc. cbn [app]. rewrite issued_call_delay.
  destruct (edit_attempt_result _) as [v|e2].
  - unfold ret. rewrite <- app_assoc. reflexivity.
  - rewrite andb_false_r. unfold handleGeminiError, throw. rewrite <- app_assoc. reflexivity.
Qed.

(** C4: with the credential present, [editImage] calls one fixed model at
    most twice.  A first attempt that succeeds returns its extracted result
    after one call; a first failure not flagged as a rate limit is classified
    and raised after one call; a first failure flagged as a rate limit is
    followed by exactly one 2000 ms delay and a second call to the same model
    with the same request, whose success returns the second attempt's
    extracted image and text and whose failure, of any kind, is classified and
    raised. *)
Theorem editImage_two_attempts (imageB64 prompt mimeType : string) (env : Env)
        (tr : list Event) :
  has_credential env = true ->
  let req := edit_request imageB64 prompt mimeType in
  let call := EvCall edit_model req in
  let first := edit_attempt_result (backend env (issued tr) edit_model req) in
  let second := edit_attempt_result (backend env (S (issued tr)) edit_model req) in
  (forall v, first = inl v ->
     editImage imageB64 prompt mimeType env tr = (Return (Some v), tr ++ [call])) /\
  (forall e, first = inr e -> isRateLimit e = false ->
     editImage imageB64 prompt mimeType env tr = (Throw (classify e), tr ++ [call])) /\
  (forall e v, first = inr e -> isRateLimit e = true -> second = inl v ->
     editImage imageB64 prompt mimeType env tr =
     (Return (Some v), tr ++ [call; EvDelay 2000; call])) /\
  (forall e e2, first = inr e -> isRateLimit e = true -> second = inr e2 ->
     editImage imageB64 prompt mimeType env tr =
     (Throw (classify e2), tr ++ [call; EvDelay 2000; call])) /\
  (forall e r c cs,
     backend env (issued tr) edit_model req = Fails e -> isRateLimit e = true ->
     backend env (S (issued tr)) edit_model req = Responds r ->
     resp_candidates r = Some (c :: cs) ->
     editImage imageB64 prompt mimeType env tr =
     (Return (Some (mkEditResult (image_of_parts (candidate_parts c))
                                 (text_of_parts (candidate_parts c)))),
      tr ++ [call; EvDelay 2000; call])).
Proof.
  intros Hk req call first second.
  pose proof (editImage_run env imageB64 prompt mimeType tr Hk) as Hrun.
  cbv zeta in Hrun. fold req in Hrun. fold first second in Hrun. fold call in Hrun.
  repeat split.
  - intros v Hv. now rewrite Hrun, Hv.
  - intros e He Hrl. now rewrite Hrun, He, Hrl.
  - intros e v He Hrl Hv. now rewrite Hrun, He, Hrl, Hv.
  - intros e e2 He Hrl He2. now rewrite Hrun, He, Hrl, He2.
  - intros e r c cs He Hrl Hr Hc. rewrite Hrun. unfold first, second.
    rewrite He. cbn [edit_attempt_result]. rewrite Hrl, Hr. cbn [edit_attempt_result].
    rewrite Hc, scan_parts_spec. reflexivity.
Qed.

(** One rate-limit failure, then a response with two candidates. *)
Lemma editImage_two_attempts_witness :
  editImage "img" "make it blue" "image/png" (failing_then 1 blue_response) [] =
  (Return (Some (mkEditResult (Some "BLUE") "Here it is: a blue image.")),
   [EvCall edit_model (edit_request "img" "make it blue" "image/png"); EvDelay 2000;
    EvCall edit_model (edit_request "img" "make it blue" "image/png")]).
Proof.
  apply (proj2 (proj2 (proj2 (proj2
           (editImage_two_attempts "img" "make it blue" "image/png"
                                   (failing_then 1 blue_response) [] eq_refl))))
         rate_limited blue_response
         (mkCandidate (Some [text_part "Here it is: "; inline_part "BLUE" "image/png";
                             text_part "a blue image."]))
         [mkCandidate (Some [text_part "ignored"; inline_part "OTHER" "image/png"])]);
    reflexivity.
Defined.

(** C5 (what the code does): when the response to the first call of
    [editImage] has zero result candidates, the operation raises after that
    single call, with no retry and no delay; but the NO_CANDIDATES error
    thrown inside the [try] block is caught and classified again, and its
    message contains "blocked", so the error that reaches the caller is
    classified SAFETY_ERROR. *)
Theorem editImage_zero_candidates (imageB64 prompt mimeType : string) (env : Env)
        (tr : list Event) (r : Response) :
  has_credential env = true ->
  backend env (issued tr) edit_model (edit_request imageB64 prompt mimeType) = Responds r ->
  resp_candidates r = None \/ resp_candidates r = Some [] ->
  editImage imageB64 prompt mimeType env tr =
  (Throw (GeminiError "The request was blocked by safety filters. Please try a different prompt."
                      SAFETY_ERROR None),
   tr ++ [EvCall edit_model (edit_request imageB64 prompt mimeType)]).
Proof.
  intros Hk Hr Hc. rewrite (editImage_run env imageB64 prompt mimeType tr Hk). cbv zeta.
  rewrite Hr. cbn [edit_attempt_result]. destruct Hc as [-> | ->]; reflexivity.
Qed.

(** A first response with an empty candidate list. *)
Lemma editImage_zero_candidates_witness :
  editImage "img" "make it blue" "image/png" (failing_then 0 no_candidates_response) [] =
  (Throw (GeminiError "The request was blocked by safety filters. Please try a different prompt."
                      SAFETY_ERROR None),
   [EvCall edit_model (edit_request "img" "make it blue" "image/png")]).
Proof.
  apply (editImage_zero_candidates "img" "make it blue" "image/png"
           (failing_then 0 no_candidates_response) [] no_candidates_response eq_refl eq_refl).
  now right.
Defined.

(** ** generateImage: the self-recursive retry *)

Lemma generateImageWithRetry_step (ai : Client) (modelName prompt : string) (retries : nat)
      (env : Env) (tr : list Event) :
  generateImageWithRetry ai modelName prompt retries env tr =
  match backend env (issued tr) modelName (generate_request prompt) with
  | Responds r => (Return r, tr ++ [EvCall modelName (generate_request prompt)])
  | Fails e =>
      match retries with
      | S retries_minus_1 =>
          if isRateLimit_generate e then
            generateImageWithRetry ai modelName prompt retries_minus_1 env
              (tr ++ [EvCall modelName (generate_request prompt);
                      EvDelay ((6 - Z.of_nat retries) * 2000)])
          else (Throw e, tr ++ [EvCall modelName (generate_request prompt)])
      | O => (Throw e, tr ++ [EvCall modelName (generate_request prompt)])
      end
  end.
Proof.
  destruct retries as [|n]; cbn [generateImageWithRetry];
    unfold try_catch, send, call_backend;
    destruct (backend env (issued tr) modelName (generate_request prompt)) as [r|e];
    try reflexivity.
  destruct (isRateLimit_generate e); [|reflexivity].
  unfold bind, delay. now rewrite <- app_assoc.
Qed.

(** The shape of every run of the retry: [k] flagged failures, each followed
    by its delay, then one last call whose outcome ends the run. *)
Lemma generateImageWithRetry_shape (ai : Client) (modelName prompt : string) (env : Env) :
  forall (retries : nat) (tr : list Event),
  exists k,
    (k <= retries)%nat /\
    snd (generateImageWithRetry ai modelName prompt retries env tr) =
      tr ++ retried modelName prompt retries k ++ [EvCall modelName (generate_request prompt)] /\
    (forall j, (j < k)%nat ->
       exists e, backend env (issued tr + j) modelName (generate_request prompt) = Fails e /\
                 isRateLimit_generate e = true) /\
    fst (generateImageWithRetry ai modelName prompt retries env tr) =
      match backend env (issued tr + k) modelName (generate_request prompt) with
      | Responds r => Return r
      | Fails e => Throw e
      end /\
    ((k < retries)%nat ->
     forall e, backend env (issued tr + k) modelName (generate_request prompt) = Fails e ->
               isRateLimit_generate e = false).
Proof.
  induction retries as [|n IH]; intros tr; rewrite generateImageWithRetry_step.
  - exists 0%nat. rewrite Nat.add_0_r.
    destruct (backend env (issued tr) modelName (generate_request prompt)) as [r|e];
      (repeat split; [lia | intros j Hj; lia | intros Hlt; lia]).
  - destruct (backend env (issued tr) modelName (generate_request prompt)) as [r|e] eqn:Hb.
    + exists 0%nat. rewrite Nat.add_0_r, Hb.
      repeat split; [lia | intros j Hj; lia | intros _ e He; discriminate].
    + destruct (isRateLimit_generate e) eqn:Hrl.
      * destruct (IH (tr ++ [EvCall modelName (generate_request prompt);
                            EvDelay ((6 - Z.of_nat (S n)) * 2000)]))
          as [k [Hk [Htr [Hfl [Hres Hstop]]]]].
        rewrite issued_call_delay in Hfl, Hres, Hstop.
        exists (S k). repeat split.
        -- lia.
        -- rewrite Htr, <- app_assoc. cbn [retried app].
           replace (S n - 1)%nat with n by lia. reflexivity.
        -- intros [|j] Hj.
           ++ exists e. now rewrite Nat.add_0_r.
           ++ destruct (Hfl j ltac:(lia)) as [e' He']. exists e'.
              now rewrite Nat.add_succ_r.
        -- rewrite Hres. now rewrite Nat.add_succ_r.
        -- intros Hlt e' He'. apply Hstop; [lia|]. now rewrite Nat.add_succ_r in He'.
      * exists 0%nat. rewrite Nat.add_0_r, Hb.
        repeat split; [lia | intros j Hj; lia | intros _ e' He'; congruence].
Qed.

Lemma generateImage_run (prompt : string) (env : Env) (tr : list Event) :
  has_credential env = true ->
  exists ai,
    generateImage prompt env tr =
    (match fst (generateImageWithRetry ai generate_model prompt 5 env tr) with
     | Return r =>
         match generate_result r with
         | inl v => Return v
         | inr e => Throw (classify e)
         end
     | Throw e => Throw (classify e)
     | OutOfFuel => OutOfFuel
     end,
     snd (generateImageWithRetry ai generate_model prompt 5 env tr)).
Proof.
  intros Hk. destruct (getGeminiModel_with_credential env tr Hk) as [ai Hai]. exists ai.
  unfold generateImage, try_catch, bind at 1. rewrite Hai. unfold bind at 1.
  destruct (generateImageWithRetry ai generate_model prompt 5 env tr) as [[r|e|] tr'];
    cbn [fst snd]; try reflexivity.
  unfold bind, first_candidate_parts, generate_result, candidate_parts.
  destruct (resp_candidates r) as [[|c cs]|]; reflexivity.
Qed.

Lemma issued_retried (modelName prompt : string) (retries k : nat) (ev : Event) :
  is_call ev = true ->
  issued (retried modelName prompt retries k ++ [ev]) = S k.
Proof.
  intros Hev. revert retries. induction k as [|k IH]; intros retries.
  - unfold issued. simpl. now rewrite Hev.
  - cbn [retried app]. unfold issued in *. cbn [filter is_call length]. now rewrite IH.
Qed.

(** C3, as stated, fails on the bound of five attempts: when the backend
    fails five times with a rate limit, a sixth call is issued. *)
Lemma generateImage_six_attempts_counterexample :
  issued (snd (generateImage "a red fox" (failing_then 5 blue_response) [])) = 6%nat /\
  ~ (issued (snd (generateImage "a red fox" (failing_then 5 blue_response) [])) <= 5)%nat /\
  fst (generateImage "a red fox" (failing_then 5 blue_response) []) =
    Return (mkGenerateResult (Some "BLUE") "Here it is: a blue image.").
Proof.
  assert (H : issued (snd (generateImage "a red fox" (failing_then 5 blue_response) [])) = 6%nat)
    by reflexivity.
  split; [exact H|]. split; [rewrite H; lia | reflexivity].
Qed.

(** C3 (amended): with the credential present, [generateImage] calls a single
    fixed model with one request and retries only on failures flagged by its
    rate-limit test, making at most six attempts in total: the first attempt
    and up to five retries.  The delay before each retry is
    [(6 - remainingRetries) * 2000] ms.  In particular, when the backend fails
    with a rate limit four times and answers the fifth attempt, five calls are
    issued and the delays between them are 2000, 4000, 6000, 8000 ms in that
    order. *)
Theorem generateImage_retry_schedule (prompt : string) (env : Env) :
  has_credential env = true ->
  let req := generate_request prompt in
  let out := generateImage prompt env [] in
  (exists k,
      (k <= 5)%nat /\
      snd out = retried generate_model prompt 5 k ++ [EvCall generate_model req] /\
      issued (snd out) = S k /\
      (forall j, (j < k)%nat ->
         exists e, backend env j generate_model req = Fails e /\
                   isRateLimit_generate e = true) /\
      ((k < 5)%nat ->
       forall e, backend env k generate_model req = Fails e ->
                 isRateLimit_generate e = false)) /\
  (forall e1 e2 e3 e4 r,
      backend env 0 generate_model req = Fails e1 -> isRateLimit_generate e1 = true ->
      backend env 1 generate_model req = Fails e2 -> isRateLimit_generate e2 = true ->
      backend env 2 generate_model req = Fails e3 -> isRateLimit_generate e3 = true ->
      backend env 3 generate_model req = Fails e4 -> isRateLimit_generate e4 = true ->
      backend env 4 generate_model req = Responds r ->
      issued (snd out) = 5%nat /\ delays (snd out) = [2000; 4000; 6000; 8000]%Z).
Proof.
  intros Hk req out.
  destruct (generateImage_run prompt env [] Hk) as [ai Hrun].
  destruct (generateImageWithRetry_shape ai generate_model prompt env 5 [])
    as [k [Hle [Htr [Hfl [_ Hstop]]]]].
  cbn [app] in Htr. change (issued [] + ?n)%nat with n in Hfl, Hstop.
  assert (Hout : snd out = retried generate_model prompt 5 k ++ [EvCall generate_model req]).
  { unfold out. rewrite Hrun. exact Htr. }
  split.
  - exists k. repeat split; try assumption.
    rewrite Hout. now apply issued_retried.
  - intros e1 e2 e3 e4 r H0 R0 H1 R1 H2 R2 H3 R3 H4.
    assert (k = 4)%nat as ->.
    { destruct k as [|[|[|[|[|k]]]]].
      - specialize (Hstop ltac:(lia) e1 H0). congruence.
      - specialize (Hstop ltac:(lia) e2 H1). congruence.
      - specialize (Hstop ltac:(lia) e3 H2). congruence.
      - specialize (Hstop ltac:(lia) e4 H3). congruence.
      - reflexivity.
      - destruct (Hfl 4%nat ltac:(lia)) as [e [He _]]. fold req in He. congruence. }
    rewrite Hout. split; reflexivity.
Qed.

(** Four rate-limit failures, then a response. *)
Lemma generateImage_retry_schedule_witness :
  issued (snd (generateImage "a red fox" (failing_then 4 blue_response) [])) = 5%nat /\
  delays (snd (generateImage "a red fox" (failing_then 4 blue_response) [])) =
    [2000; 4000; 6000; 8000]%Z.
Proof.
  apply (proj2 (generateImage_retry_schedule "a red fox" (failing_then 4 blue_response) eq_refl)
               rate_limited rate_limited rate_limited rate_limited blue_response);
    reflexivity.
Defined.

(** ** analyzeImage: the fallback loop *)

Lemma analyze_attempt_run (env : Env) (model imageB64 prompt mimeType : string)
      (tr : list Event) :
  has_credential env = true ->
  analyze_attempt model imageB64 prompt mimeType env tr =
  match analyze_attempt_result
          (backend env (issued tr) model (analyze_request imageB64 prompt mimeType)) with
  | inl t => (Return t, tr ++ [EvCall model (analyze_request imageB64 prompt mimeType)])
  | inr e => (Throw e, tr ++ [EvCall model (analyze_request imageB64 prompt mimeType)])
  end.
Proof.
  intros Hk. destruct (getGeminiModel_with_credential env tr Hk) as [ai Hai].
  unfold analyze_attempt, bind, send, call_backend, analyze_attempt_result. rewrite Hai.
  destruct (backend env (issued tr) model _) as [r|e]; [|reflexivity].
  destruct (resp_text r) as [t|]; [|reflexivity].
  simpl. destruct (t =? ""); reflexivity.
Qed.

(** The whole behaviour of [analyzeImage] from the outcomes of its two calls. *)
Lemma analyzeImage_run (env : Env) (imageB64 prompt mimeType : string) (tr : list Event) :
  has_credential env = true ->
  analyzeImage imageB64 prompt mimeType env tr =
  let req := analyze_request imageB64 prompt mimeType in
  match analyze_attempt_result (backend env (issued tr) "gemini-3-flash-preview" req) with
  | inl t => (Return t, tr ++ [EvCall "gemini-3-flash-preview" req])
  | inr e =>
      if isRateLimit e then
        match analyze_attempt_result
                (backend env (S (issued tr)) "gemini-2.5-flash-image" req) with
        | inl t => (Return t,
                    tr ++ [EvCall "gemini-3-flash-preview" req; EvDelay 1000;
                           EvCall "gemini-2.5-flash-image" req])
        | inr e2 => (Throw (classify e2),
                     tr ++ [EvCall "gemini-3-flash-preview" req; EvDelay 1000;
                            EvCall "gemini-2.5-flash-image" req])
        end
      else (Throw (classify e), tr ++ [EvCall "gemini-3-flash-preview" req])
  end.
Proof.
  intros Hk. unfold analyzeImage, analyze_models. cbn [analyze_loop length Nat.sub Nat.eqb].
  unfold try_catch. rewrite (analyze_attempt_run env _ _ _ _ tr Hk). cbv zeta.
  destruct (analyze_attempt_result _) as [t|e]; [reflexivity|].
  rewrite orb_false_r. destruct (isRateLimit e); cbn [negb]; [|reflexivity].
  unfold bind at 1, delay at 1. rewrite (analyze_attempt_run env _ _ _ _ _ Hk).
  rewrite <- app_assoc. cbn [app]. rewrite issued_call_delay.
  destruct (analyze_attempt_result _) as [t|e2]; rewrite <- app_assoc; [reflexivity|].
  rewrite orb_true_r. reflexivity.
Qed.

(** ** Errors thrown inside the [try] blocks *)

(** C6 (what the code does): when the first chat response has no text, the
    operation raises after that single call, with no fallback to the
    remaining candidates and no delay; but the EMPTY_RESPONSE error thrown
    inside the [try] block is caught and classified again, and no rule
    matches its message, so the error that reaches the caller is classified
    UNKNOWN_ERROR and holds the EMPTY_RESPONSE error only as its details. *)
Theorem chat_empty_response (message : string) (history : list jsval) (env : Env)
        (tr : list Event) (r : Response) :
  has_credential env = true ->
  backend env (issued tr) "gemini-3.1-pro-preview" (SendMessage message) = Responds r ->
  truthy_text (resp_text r) = false ->
  chatWithGemini message history env tr =
  (Throw (GeminiError "The model returned an empty response." UNKNOWN_ERROR
            (Some (GeminiError "The model returned an empty response." EMPTY_RESPONSE None))),
   tr ++ [EvCall "gemini-3.1-pro-preview" (SendMessage message)]).
Proof.
  intros Hk Hr Hempty. unfold chatWithGemini, chat_models. cbn [chat_loop].
  unfold try_catch. rewrite (chat_attempt_run env _ message tr Hk), Hr.
  unfold chat_attempt_result. rewrite Hempty. reflexivity.
Qed.

(** A first response whose text is the empty string. *)
Lemma chat_empty_response_witness :
  chatWithGemini "hi" [] (failing_then 0 empty_text_response) [] =
  (Throw (GeminiError "The model returned an empty response." UNKNOWN_ERROR
            (Some (GeminiError "The model returned an empty response." EMPTY_RESPONSE None))),
   [EvCall "gemini-3.1-pro-preview" (SendMessage "hi")]).
Proof.
  apply (chat_empty_response "hi" [] (failing_then 0 empty_text_response) []
                             empty_text_response eq_refl eq_refl eq_refl).
Defined.

(** ** The missing credential *)

Lemma chat_without_credential (message : string) (history : list jsval) (env : Env)
      (tr : list Event) :
  has_credential env = false ->
  chatWithGemini message history env tr = (Throw missing_credential_error, tr).
Proof.
  intros Hk. unfold chatWithGemini, chat_models. cbn [chat_loop].
  unfold try_catch, chat_attempt, bind.
  now rewrite (getGeminiModel_without_credential env tr Hk).
Qed.

Lemma analyze_without_credential (imageB64 prompt mimeType : string) (env : Env)
      (tr : list Event) :
  has_credential env = false ->
  analyzeImage imageB64 prompt mimeType env tr = (Throw missing_credential_error, tr).
Proof.
  intros Hk. unfold analyzeImage, analyze_models. cbn [analyze_loop].
  unfold try_catch, analyze_attempt, bind.
  now rewrite (getGeminiModel_without_credential env tr Hk).
Qed.

Lemma edit_without_credential (imageB64 prompt mimeType : string) (env : Env)
      (tr : list Event) :
  has_credential env = false ->
  editImage imageB64 prompt mimeType env tr = (Throw missing_credential_error, tr).
Proof.
  intros Hk. unfold editImage. change maxAttempts with 2%nat at 1.
  rewrite editImage_while_step. change (0 <? maxAttempts)%nat with true. cbv iota.
  unfold try_catch, edit_attempt, bind.
  now rewrite (getGeminiModel_without_credential env tr Hk).
Qed.

Lemma generate_without_credential (prompt : string) (env : Env) (tr : list Event) :
  has_credential env = false ->
  generateImage prompt env tr = (Throw missing_credential_error, tr).
Proof.
  intros Hk. unfold generateImage, try_catch, bind.
  now rewrite (getGeminiModel_without_credential env tr Hk).
Qed.

(** C8, as stated, fails on the kind of error: without the credential
    [chatWithGemini] raises a classified error, of kind UNKNOWN_ERROR, not an
    error outside the taxonomy. *)
Lemma missing_credential_counterexample :
  fst (chatWithGemini "hi" [] no_credential_env []) =
    Throw (GeminiError "GEMINI_API_KEY is not set" UNKNOWN_ERROR (Some initialization_error)) /\
  ~ outside_taxonomy (fst (chatWithGemini "hi" [] no_credential_env [])).
Proof.
  split; [reflexivity|]. intros H. discriminate H.
Qed.

(** C8 (amended): when the credential is absent, each of the four operations
    fails at once, the same way on every call, before any backend call and
    without any delay (the trace is unchanged); the initialization error of
    [getGeminiModel] is caught and classified like any other failure, so the
    error raised is the classified error of kind UNKNOWN_ERROR with message
    "GEMINI_API_KEY is not set", holding the initialization error as its
    details. *)
Theorem missing_credential_fails_first (env : Env) (tr : list Event) :
  has_credential env = false ->
  (forall message history,
      chatWithGemini message history env tr = (Throw missing_credential_error, tr)) /\
  (forall imageB64 prompt mimeType,
      analyzeImage imageB64 prompt mimeType env tr = (Throw missing_credential_error, tr)) /\
  (forall imageB64 prompt mimeType,
      editImage imageB64 prompt mimeType env tr = (Throw missing_credential_error, tr)) /\
  (forall prompt,
      generateImage prompt env tr = (Throw missing_credential_error, tr)).
Proof.
  intros Hk. repeat split; intros.
  - now apply chat_without_credential.
  - now apply analyze_without_credential.
  - now apply edit_without_credential.
  - now apply generate_without_credential.
Qed.

(** [generateImage] in an environment without the credential. *)
Lemma missing_credential_fails_first_witness :
  generateImage "a red fox" no_credential_env [] = (Throw missing_credential_error, []).
Proof.
  apply (proj2 (proj2 (proj2 (missing_credential_fails_first no_credential_env [] eq_refl)))).
Defined.

(** ** Terminal outcomes *)

Lemma classify_is_classified (e : JsError) :
  exists m k d, classify e = GeminiError m k d.
Proof.
  unfold classify.
  repeat match goal with
         | |- context [if ?b then _ else _] => destruct b
         end; repeat eexists.
Qed.

Lemma settled_classify {A} (e : JsError) : @settled A (Throw (classify e)) = true.
Proof. destruct (classify_is_classified e) as [m [k [d ->]]]. reflexivity. Qed.

Lemma settled_defined_classify {A} (e : JsError) :
  @settled_defined A (Throw (classify e)) = true.
Proof. destruct (classify_is_classified e) as [m [k [d ->]]]. reflexivity. Qed.

Lemma FallbackRun_settled (env : Env) (message : string) (models : list string)
      (tr : list Event) (out : Completion string * list Event) :
  FallbackRun env message models tr out -> settled (fst out) = true.
Proof.
  induction 1; cbn [fst]; [reflexivity | apply settled_classify | assumption].
Qed.

Lemma editImage_while_exhausted (fuel : nat) (imageB64 prompt mimeType : string)
      (attempts : nat) :
  (maxAttempts <= attempts)%nat ->
  editImage_while fuel imageB64 prompt mimeType attempts = ret None.
Proof.
  intros Hge. apply Nat.ltb_ge in Hge.
  destruct fuel; cbn [editImage_while]; now rewrite Hge.
Qed.

Lemma editImage_while_fuel (imageB64 prompt mimeType : string) (env : Env) :
  forall (fuel fuel' attempts : nat) (tr : list Event),
    (maxAttempts - attempts <= fuel)%nat ->
    (maxAttempts - attempts <= fuel')%nat ->
    editImage_while fuel imageB64 prompt mimeType attempts env tr =
    editImage_while fuel' imageB64 prompt mimeType attempts env tr.
Proof.
  induction fuel as [|f IH]; intros fuel' attempts tr Hf Hf'.
  - rewrite !editImage_while_exhausted by lia. reflexivity.
  - destruct (Nat.le_gt_cases maxAttempts attempts) as [Hge|Hlt].
    + rewrite !editImage_while_exhausted by lia. reflexivity.
    + destruct fuel' as [|f']; [lia|].
      rewrite (editImage_while_step f), (editImage_while_step f').
      destruct (attempts <? maxAttempts)%nat; [|reflexivity].
      unfold try_catch.
      destruct ((r <- edit_attempt imageB64 prompt mimeType ;; ret (Some r)) env tr)
        as [[v|e|] tr']; try reflexivity.
      destruct (isRateLimit e && (attempts + 1 <? maxAttempts)%nat); [|reflexivity].
      unfold bind, delay. apply IH; lia.
Qed.

(** The fuel given to the loop of [editImage] is enough: more fuel changes
    nothing. *)
Lemma editImage_fuel_enough (fuel : nat) (imageB64 prompt mimeType : string) (env : Env)
      (tr : list Event) :
  (maxAttempts <= fuel)%nat ->
  editImage_while fuel imageB64 prompt mimeType 0 env tr =
  editImage imageB64 prompt mimeType env tr.
Proof.
  intros Hf. unfold editImage. apply editImage_while_fuel; lia.
Qed.

(** C9: for every input, environment and backend each of the four operations
    completes with exactly one terminal outcome, a returned value or a thrown
    classified error; the candidate loops of [chatWithGemini] and
    [analyzeImage] never reach the statement after the loop with no error at
    hand, and the attempt loop of [editImage] never falls through to return
    [undefined] nor needs more than its two iterations. *)
Theorem every_operation_settles (env : Env) (tr : list Event) :
  (forall message history,
      settled (fst (chatWithGemini message history env tr)) = true) /\
  (forall imageB64 prompt mimeType,
      settled (fst (analyzeImage imageB64 prompt mimeType env tr)) = true) /\
  (forall imageB64 prompt mimeType,
      settled_defined (fst (editImage imageB64 prompt mimeType env tr)) = true /\
      forall fuel, (maxAttempts <= fuel)%nat ->
        editImage_while fuel imageB64 prompt mimeType 0 env tr =
        editImage imageB64 prompt mimeType env tr) /\
  (forall prompt,
      settled (fst (generateImage prompt env tr)) = true).
Proof.
  destruct (has_credential env) eqn:Hk.
  - repeat split; intros.
    + apply (FallbackRun_settled env message chat_models tr).
      unfold chatWithGemini. apply chat_loop_run; [assumption | discriminate | reflexivity].
    + rewrite (analyzeImage_run env _ _ _ tr Hk). cbv zeta.
      destruct (analyze_attempt_result _) as [t|e]; [reflexivity|].
      destruct (isRateLimit e); [|apply settled_classify].
      destruct (analyze_attempt_result _) as [t|e2]; [reflexivity | apply settled_classify].
    + rewrite (editImage_run env _ _ _ tr Hk). cbv zeta.
      destruct (edit_attempt_result _) as [v|e]; [reflexivity|].
      destruct (isRateLimit e); [|apply settled_defined_classify].
      destruct (edit_attempt_result _) as [v|e2];
        [reflexivity | apply settled_defined_classify].
    + now apply editImage_fuel_enough.
    + destruct (generateImage_run prompt env tr Hk) as [ai ->]. cbn [fst].
      destruct (generateImageWithRetry_shape ai generate_model prompt env 5 tr)
        as [k [_ [_ [_ [-> _]]]]].
      destruct (backend env (issued tr + k) generate_model (generate_request prompt))
        as [r|e]; [|apply settled_classify].
      destruct (generate_result r) as [v|e]; [reflexivity | apply settled_classify].
  - repeat split; intros.
    + now rewrite chat_without_credential.
    + now rewrite analyze_without_credential.
    + now rewrite edit_without_credential.
    + now apply editImage_fuel_enough.
    + now rewrite generate_without_credential.
Qed.

(** ** The retry tests *)

Lemma isRateLimit_loose (e : JsError) : isRateLimit e = loose_rate_limit (err_message e).
Proof. unfold isRateLimit. now rewrite str_or_empty_default. Qed.

Lemma isRateLimit_generate_loose (e : JsError) :
  isRateLimit_generate e = is_429 (err_status e) || loose_rate_limit (err_message e).
Proof.
  unfold isRateLimit_generate, loose_rate_limit.
  destruct (String.eqb_spec (err_message e) "") as [->|_]; reflexivity.
Qed.

Lemma FallbackRun_issued (env : Env) (message : string) (models : list string)
      (tr : list Event) (out : Completion string * list Event) :
  FallbackRun env message models tr out -> (issued tr < issued (snd out))%nat.
Proof.
  induction 1 as [model rest tr t _ | model rest tr e _ _ | model rest tr e out _ _ _ _ IH];
    cbn [snd].
  - rewrite issued_app. change (issued [EvCall model (SendMessage message)]) with 1%nat. lia.
  - rewrite issued_app. change (issued [EvCall model (SendMessage message)]) with 1%nat. lia.
  - rewrite issued_call_delay in IH. lia.
Qed.

(** C7, as stated, fails for [generateImage]: a failure whose message does
    not match the loose pattern but whose status is 429 is retried. *)
Lemma generateImage_status_retry_counterexample :
  loose_rate_limit (err_message status_only_429) = false /\
  issued (snd (generateImage "a red fox" (failing_with status_only_429 1 blue_response) []))
    = 2%nat /\
  ~ retried_iff_loose
      (generateImage "a red fox" (failing_with status_only_429 1 blue_response) [])
      status_only_429.
Proof.
  split; [reflexivity|]. split; [reflexivity|].
  intros [H _].
  assert (Hloose : loose_rate_limit (err_message status_only_429) = true)
    by (apply H; apply Nat.le_refl).
  discriminate Hloose.
Qed.

Lemma chat_retried_iff (env : Env) (e : JsError) (message : string) (history : list jsval) :
  has_credential env = true ->
  backend env 0 "gemini-3.1-pro-preview" (SendMessage message) = Fails e ->
  retried_iff_loose (chatWithGemini message history env []) e.
Proof.
  intros Hk He. unfold retried_iff_loose.
  pose proof (chat_loop_run env message chat_models Hk chat_models 0 None []
                ltac:(discriminate) eq_refl) as Hrun.
  fold (chatWithGemini message history) in Hrun.
  inversion Hrun as [model rest tr t Hres | model rest tr e' Hres Hstop Hout
                     | model rest tr e' out' Hres Hrl Hrest Hnext];
    subst; change (issued []) with 0%nat in Hres; rewrite He in Hres;
    cbn [chat_attempt_result] in Hres; try discriminate;
    injection Hres as <-; rewrite isRateLimit_loose in *.
  - destruct Hstop as [Hno | Hlast]; [|discriminate].
    rewrite Hno. cbn. split; [lia | discriminate].
  - apply FallbackRun_issued in Hnext. cbn [app] in Hnext.
    change (issued [EvCall "gemini-3.1-pro-preview" (SendMessage message); EvDelay 1000])
      with 1%nat in Hnext.
    split; [intros _; assumption | intros _; lia].
Qed.

Lemma analyze_retried_iff (env : Env) (e : JsError) (imageB64 prompt mimeType : string) :
  has_credential env = true ->
  backend env 0 "gemini-3-flash-preview" (analyze_request imageB64 prompt mimeType) = Fails e ->
  retried_iff_loose (analyzeImage imageB64 prompt mimeType env []) e.
Proof.
  intros Hk He. unfold retried_iff_loose.
  rewrite (analyzeImage_run env _ _ _ [] Hk). cbv zeta.
  change (issued []) with 0%nat. rewrite He. cbn [analyze_attempt_result].
  rewrite isRateLimit_loose. destruct (loose_rate_limit (err_message e)).
  - destruct (analyze_attempt_result _); cbn; split; (reflexivity || lia).
  - cbn. split; [lia | discriminate].
Qed.

Lemma edit_retried_iff (env : Env) (e : JsError) (imageB64 prompt mimeType : string) :
  has_credential env = true ->
  backend env 0 edit_model (edit_request imageB64 prompt mimeType) = Fails e ->
  retried_iff_loose (editImage imageB64 prompt mimeType env []) e.
Proof.
  intros Hk He. unfold retried_iff_loose.
  rewrite (editImage_run env _ _ _ [] Hk). cbv zeta.
  change (issued []) with 0%nat. rewrite He. cbn [edit_attempt_result].
  rewrite isRateLimit_loose. destruct (loose_rate_limit (err_message e)).
  - destruct (edit_attempt_result _); cbn; split; (reflexivity || lia).
  - cbn. split; [lia | discriminate].
Qed.

Lemma generate_retried_iff (env : Env) (e : JsError) (prompt : string) :
  has_credential env = true ->
  backend env 0 generate_model (generate_request prompt) = Fails e ->
  (2 <= issued (snd (generateImage prompt env [])))%nat <->
  is_429 (err_status e) || loose_rate_limit (err_message e) = true.
Proof.
  intros Hk He. rewrite <- isRateLimit_generate_loose.
  destruct (generateImage_run prompt env [] Hk) as [ai ->]. cbn [snd].
  destruct (generateImageWithRetry_shape ai generate_model prompt env 5 [])
    as [k [_ [-> [Hfl [_ Hstop]]]]].
  cbn [app]. rewrite issued_retried by reflexivity.
  change (issued [] + ?n)%nat with n in Hfl, Hstop.
  split.
  - intros Hcalls. destruct (Hfl 0%nat ltac:(lia)) as [e' [He' Hrl]]. congruence.
  - intros Hflag. destruct k as [|k]; [|lia].
    specialize (Hstop ltac:(lia) e He). congruence.
Qed.

(** C7 (amended): with the credential present, whether the failure [e] of the
    first call is followed by a second call is decided, in [chatWithGemini],
    [analyzeImage] and [editImage], by exactly the loose pattern match on the
    raw failure's message (it contains "429", "quota" or "Rate limit"), with
    no status check and before classification; in [generateImage] the test
    also accepts a failure whose [status] equals 429. *)
Theorem retry_predicates (env : Env) (e : JsError) :
  has_credential env = true ->
  (forall message history,
      backend env 0 "gemini-3.1-pro-preview" (SendMessage message) = Fails e ->
      retried_iff_loose (chatWithGemini message history env []) e) /\
  (forall imageB64 prompt mimeType,
      backend env 0 "gemini-3-flash-preview" (analyze_request imageB64 prompt mimeType)
        = Fails e ->
      retried_iff_loose (analyzeImage imageB64 prompt mimeType env []) e) /\
  (forall imageB64 prompt mimeType,
      backend env 0 edit_model (edit_request imageB64 prompt mimeType) = Fails e ->
      retried_iff_loose (editImage imageB64 prompt mimeType env []) e) /\
  (forall prompt,
      backend env 0 generate_model (generate_request prompt) = Fails e ->
      ((2 <= issued (snd (generateImage prompt env [])))%nat <->
       is_429 (err_status e) || loose_rate_limit (err_message e) = true)).
Proof.
  intros Hk. split; [|split; [|split]].
  - intros message history He. now apply chat_retried_iff.
  - intros imageB64 prompt mimeType He. now apply analyze_retried_iff.
  - intros imageB64 prompt mimeType He. now apply edit_retried_iff.
  - intros prompt He. now apply generate_retried_iff.
Qed.

(** [generateImage] on a failure that only its status marks as a rate limit. *)
Lemma retry_predicates_witness :
  (2 <= issued (snd (generateImage "a red fox"
                       (failing_with status_only_429 1 blue_response) [])))%nat <->
  is_429 (err_status status_only_429) || loose_rate_limit (err_message status_only_429) = true.
Proof.
  apply (proj2 (proj2 (proj2
           (retry_predicates (failing_with status_only_429 1 blue_response)
                             status_only_429 eq_refl)))
         "a red fox" eq_refl).
Defined.

(** ** The result of a successful image response *)

(** C10: with the credential present, when the response to [editImage] or
    [generateImage] has at least one candidate, the result is computed from
    the parts of the first candidate alone: the text is the concatenation, in
    order, of the text fields of the parts without inline payload, and the
    image is the payload of the last part that carries one.  A later inline
    part replaces the image of the earlier ones and adds nothing to the text,
    whatever text it has; with no inline part the image is [null].  Every
    value that either operation returns is extracted this way from the
    response to its last call. *)
Theorem image_result_extraction (env : Env) (tr : list Event) :
  has_credential env = true ->
  (forall imageB64 prompt mimeType r c cs,
      backend env (issued tr) edit_model (edit_request imageB64 prompt mimeType) = Responds r ->
      resp_candidates r = Some (c :: cs) ->
      editImage imageB64 prompt mimeType env tr =
      (Return (Some (mkEditResult (image_of_parts (candidate_parts c))
                                  (text_of_parts (candidate_parts c)))),
       tr ++ [EvCall edit_model (edit_request imageB64 prompt mimeType)])) /\
  (forall prompt r c cs,
      backend env (issued tr) generate_model (generate_request prompt) = Responds r ->
      resp_candidates r = Some (c :: cs) ->
      generateImage prompt env tr =
      (Return (mkGenerateResult (image_of_parts (candidate_parts c))
                                (text_of_parts (candidate_parts c))),
       tr ++ [EvCall generate_model (generate_request prompt)])) /\
  (forall imageB64 prompt mimeType v,
      fst (editImage imageB64 prompt mimeType env tr) = Return (Some v) ->
      exists k r c cs,
        backend env (issued tr + k) edit_model (edit_request imageB64 prompt mimeType)
          = Responds r /\
        resp_candidates r = Some (c :: cs) /\
        v = mkEditResult (image_of_parts (candidate_parts c))
                         (text_of_parts (candidate_parts c))) /\
  (forall prompt v,
      fst (generateImage prompt env tr) = Return v ->
      exists k r c cs,
        backend env (issued tr + k) generate_model (generate_request prompt) = Responds r /\
        resp_candidates r = Some (c :: cs) /\
        v = mkGenerateResult (image_of_parts (candidate_parts c))
                             (text_of_parts (candidate_parts c))) /\
  (forall ps p inline,
      part_inlineData p = Some inline ->
      scan_parts (ps ++ [p]) = (Some (data inline), snd (scan_parts ps))) /\
  (forall ps,
      forallb (fun p => negb (carries_inline p)) ps = true ->
      fst (scan_parts ps) = None).
Proof.
  intros Hk.
  assert (Hedit : forall o v, edit_attempt_result o = inl v ->
            exists r c cs, o = Responds r /\ resp_candidates r = Some (c :: cs) /\
              v = mkEditResult (image_of_parts (candidate_parts c))
                               (text_of_parts (candidate_parts c))).
  { intros [r|e] v; cbn [edit_attempt_result]; [|discriminate].
    destruct (resp_candidates r) as [[|c cs]|] eqn:Hc; try discriminate.
    rewrite scan_parts_spec. intros [= <-]. now exists r, c, cs. }
  split; [|split; [|split; [|split; [|split]]]].
  - intros imageB64 prompt mimeType r c cs Hr Hc.
    rewrite (editImage_run env _ _ _ tr Hk). cbv zeta. rewrite Hr.
    cbn [edit_attempt_result]. rewrite Hc, scan_parts_spec. reflexivity.
  - intros prompt r c cs Hr Hc.
    destruct (generateImage_run prompt env tr Hk) as [ai ->].
    rewrite generateImageWithRetry_step, Hr. cbn [fst snd].
    unfold generate_result. rewrite Hc, scan_parts_spec. reflexivity.
  - intros imageB64 prompt mimeType v.
    rewrite (editImage_run env _ _ _ tr Hk). cbv zeta.
    destruct (edit_attempt_result
                (backend env (issued tr) edit_model (edit_request imageB64 prompt mimeType)))
      as [v1|e1] eqn:H1.
    + intros [= <-]. destruct (Hedit _ _ H1) as [r [c [cs [Hr [Hc Hv]]]]].
      exists 0%nat, r, c, cs. now rewrite Nat.add_0_r.
    + destruct (isRateLimit e1); [|discriminate].
      destruct (edit_attempt_result
                  (backend env (S (issued tr)) edit_model
                           (edit_request imageB64 prompt mimeType)))
        as [v2|e2] eqn:H2; [|discriminate].
      intros [= <-]. destruct (Hedit _ _ H2) as [r [c [cs [Hr [Hc Hv]]]]].
      exists 1%nat, r, c, cs. now rewrite Nat.add_1_r.
  - intros prompt v. destruct (generateImage_run prompt env tr Hk) as [ai ->]. cbn [fst].
    destruct (generateImageWithRetry_shape ai generate_model prompt env 5 tr)
      as [k [_ [_ [_ [-> _]]]]].
    destruct (backend env (issued tr + k) generate_model (generate_request prompt))
      as [r|e] eqn:Hr; [|discriminate].
    unfold generate_result.
    destruct (resp_candidates r) as [[|c cs]|] eqn:Hc; try discriminate.
    rewrite scan_parts_spec. intros [= <-]. now exists k, r, c, cs.
  - intros ps p inline Hp. rewrite !scan_parts_spec. cbn [snd].
    destruct (image_of_parts_last ps p inline Hp) as [-> ->]. reflexivity.
  - intros ps Hps. rewrite scan_parts_spec. cbn [fst]. now apply image_of_parts_none.
Qed.

(** Two inline parts, the later one with a text of its own, and a second
    candidate that is not read. *)
Lemma image_result_extraction_witness :
  editImage "img" "make it blue" "image/png" (failing_then 0 two_images_response) [] =
  (Return (Some (mkEditResult (Some "LATER") "one two")),
   [EvCall edit_model (edit_request "img" "make it blue" "image/png")]).
Proof.
  apply (proj1 (image_result_extraction (failing_then 0 two_images_response) [] eq_refl)
               "img" "make it blue" "image/png" two_images_response
               (mkCandidate (Some [text_part "one "; inline_part "EARLIER" "image/png";
                                   text_part "two"; both_part]))
               [mkCandidate (Some [text_part "ignored"])]);
    reflexivity.
Defined.

(** * Further properties of the service *)

(** ** The kinds that reach a caller *)

Lemma classify_surfaced {A} (e : JsError) : @raises_surfaced_kind A (Throw (classify e)) = true.
Proof.
  unfold classify.
  repeat match goal with
         | |- context [if ?b then _ else _] => destruct b
         end; reflexivity.
Qed.

Lemma FallbackRun_surfaced (env : Env) (message : string) (models : list string)
      (tr : list Event) (out : Completion string * list Event) :
  FallbackRun env message models tr out -> raises_surfaced_kind (fst out) = true.
Proof.
  induction 1; cbn [fst]; [reflexivity | apply classify_surfaced | assumption].
Qed.

(** X1: whatever the environment, the backend and the input, an error raised
    by any of the four operations is a [GeminiError] whose kind is AUTH_ERROR,
    SAFETY_ERROR, RATE_LIMIT, NETWORK_ERROR or UNKNOWN_ERROR: the kinds
    EMPTY_RESPONSE and NO_CANDIDATES, although thrown inside the operations,
    never reach a caller. *)
Theorem internal_kinds_never_surface (env : Env) (tr : list Event) :
  (forall message history,
      raises_surfaced_kind (fst (chatWithGemini message history env tr)) = true) /\
  (forall imageB64 prompt mimeType,
      raises_surfaced_kind (fst (analyzeImage imageB64 prompt mimeType env tr)) = true) /\
  (forall imageB64 prompt mimeType,
      raises_surfaced_kind (fst (editImage imageB64 prompt mimeType env tr)) = true) /\
  (forall prompt,
      raises_surfaced_kind (fst (generateImage prompt env tr)) = true).
Proof.
  destruct (has_credential env) eqn:Hk.
  - split; [|split; [|split]].
    + intros message history.
      apply (FallbackRun_surfaced env message chat_models tr).
      unfold chatWithGemini. apply chat_loop_run; [assumption | discriminate | reflexivity].
    + intros imageB64 prompt mimeType.
      rewrite (analyzeImage_run env _ _ _ tr Hk). cbv zeta.
      destruct (analyze_attempt_result _) as [t|e]; [reflexivity|].
      destruct (isRateLimit e); [|apply classify_surfaced].
      destruct (analyze_attempt_result _) as [t|e2]; [reflexivity | apply classify_surfaced].
    + intros imageB64 prompt mimeType.
      rewrite (editImage_run env _ _ _ tr Hk). cbv zeta.
      destruct (edit_attempt_result _) as [v|e]; [reflexivity|].
      destruct (isRateLimit e); [|apply (@classify_surfaced (option EditResult))].
      destruct (edit_attempt_result _) as [v|e2];
        [reflexivity | apply (@classify_surfaced (option EditResult))].
    + intros prompt. destruct (generateImage_run prompt env tr Hk) as [ai ->]. cbn [fst].
      destruct (generateImageWithRetry_shape ai generate_model prompt env 5 tr)
        as [k [_ [_ [_ [-> _]]]]].
      destruct (backend env (issued tr + k) generate_model (generate_request prompt))
        as [r|e]; [|apply classify_surfaced].
      destruct (generate_result r) as [v|e]; [reflexivity | apply classify_surfaced].
  - split; [|split; [|split]]; intros.
    + now rewrite chat_without_credential.
    + now rewrite analyze_without_credential.
    + now rewrite edit_without_credential.
    + now rewrite generate_without_credential.
Qed.

(** ** The shape of the traces *)

Lemma attempts_events_cons (ms : Z) (req : Request) (model : string) (rest : list string) :
  rest <> [] ->
  attempts_events ms req (model :: rest) =
  EvCall model req :: EvDelay ms :: attempts_events ms req rest.
Proof. destruct rest; [contradiction | reflexivity]. Qed.

Lemma FallbackRun_shape (env : Env) (message : string) (models : list string)
      (tr : list Event) (out : Completion string * list Event) :
  FallbackRun env message models tr out ->
  exists n,
    (1 <= n <= length models)%nat /\
    snd out = tr ++ attempts_events 1000 (SendMessage message) (firstn n models) /\
    (forall j, (S j < n)%nat ->
       exists e, backend env (issued tr + j) (nth j models "") (SendMessage message) = Fails e /\
                 isRateLimit e = true).
Proof.
  induction 1 as [model rest tr t _ | model rest tr e _ _
                  | model rest tr e out He Hrl Hrest _ IH].
  - exists 1%nat. cbn [length firstn attempts_events snd].
    repeat split; [lia | lia | intros j Hj; lia].
  - exists 1%nat. cbn [length firstn attempts_events snd].
    repeat split; [lia | lia | intros j Hj; lia].
  - destruct IH as [n [[Hn1 Hn2] [Htr Hfl]]]. rewrite issued_call_delay in Hfl.
    exists (S n). cbn [length]. repeat split; [lia | lia | |].
    + rewrite Htr, <- app_assoc. cbn [firstn app].
      rewrite attempts_events_cons; [reflexivity|].
      destruct rest as [|m rest]; [contradiction|]. destruct n; [lia | discriminate].
    + intros [|j] Hj.
      * rewrite Nat.add_0_r. cbn [nth].
        cbn [chat_attempt_result] in He.
        destruct (backend env (issued tr) model (SendMessage message)) as [r|e'] eqn:Hb.
        -- cbn [chat_attempt_result] in He. destruct (truthy_text (resp_text r)).
           ++ discriminate.
           ++ injection He as <-. discriminate Hrl.
        -- cbn [chat_attempt_result] in He. injection He as <-. now exists e'.
      * destruct (Hfl j ltac:(lia)) as [e' He']. exists e'.
        cbn [nth]. now rewrite Nat.add_succ_r.
Qed.

(** X2: for every environment and backend, the trace of [chatWithGemini] is
    made of calls to the first [n] candidates, in their order and each one
    once, with one 1000 ms delay between two consecutive calls and none after
    the last; [n] is 0 exactly when the credential is missing, and never
    above three.  Every call but the last one failed with a failure that the
    retry test flags. *)
Theorem chat_trace_shape (message : string) (history : list jsval) (env : Env) :
  exists n,
    (n <= 3)%nat /\
    snd (chatWithGemini message history env []) =
      attempts_events 1000 (SendMessage message) (firstn n chat_models) /\
    (n = 0%nat <-> has_credential env = false) /\
    (forall j, (S j < n)%nat ->
       exists e, backend env j (nth j chat_models "") (SendMessage message) = Fails e /\
                 isRateLimit e = true).
Proof.
  destruct (has_credential env) eqn:Hk.
  - pose proof (chat_loop_run env message chat_models Hk chat_models 0 None []
                  ltac:(discriminate) eq_refl) as Hrun.
    fold (chatWithGemini message history) in Hrun.
    destruct (FallbackRun_shape _ _ _ _ _ Hrun) as [n [[Hn1 Hn2] [Htr Hfl]]].
    exists n. cbn [length chat_models] in Hn2. split; [lia|]. split; [exact Htr|].
    split; [split; [lia | discriminate] | exact Hfl].
  - exists 0%nat. rewrite (chat_without_credential message history env [] Hk).
    split; [lia|]. split; [reflexivity|].
    split; [split; reflexivity | intros j Hj; lia].
Qed.

(** ** analyzeImage: the fallback policy *)

(** X3: with the credential present, [analyzeImage] sends the inline image
    and the instruction, which is "Analyze this image in detail." when the
    prompt is empty, to "gemini-3-flash-preview".  A text answer is returned
    after that call; a failure that the retry test does not flag, an empty
    answer included, is classified and raised after that call; a flagged
    failure is followed by one 1000 ms delay and the same request to
    "gemini-2.5-flash-image", whose text is returned and whose failure, of
    any kind, is classified and raised. *)
Theorem analyzeImage_fallback_policy (imageB64 prompt mimeType : string) (env : Env)
        (tr : list Event) :
  has_credential env = true ->
  let req := GenerateContent
               [inline_part imageB64 mimeType;
                text_part (if prompt =? "" then "Analyze this image in detail." else prompt)] in
  let call1 := EvCall "gemini-3-flash-preview" req in
  let call2 := EvCall "gemini-2.5-flash-image" req in
  let first := analyze_attempt_result (backend env (issued tr) "gemini-3-flash-preview" req) in
  let second :=
    analyze_attempt_result (backend env (S (issued tr)) "gemini-2.5-flash-image" req) in
  (forall t, first = inl t ->
     analyzeImage imageB64 prompt mimeType env tr = (Return t, tr ++ [call1])) /\
  (forall e, first = inr e -> isRateLimit e = false ->
     analyzeImage imageB64 prompt mimeType env tr = (Throw (classify e), tr ++ [call1])) /\
  (forall e t, first = inr e -> isRateLimit e = true -> second = inl t ->
     analyzeImage imageB64 prompt mimeType env tr =
     (Return t, tr ++ [call1; EvDelay 1000; call2])) /\
  (forall e e2, first = inr e -> isRateLimit e = true -> second = inr e2 ->
     analyzeImage imageB64 prompt mimeType env tr =
     (Throw (classify e2), tr ++ [call1; EvDelay 1000; call2])).
Proof.
  intros Hk req call1 call2 first second.
  pose proof (analyzeImage_run env imageB64 prompt mimeType tr Hk) as Hrun.
  cbv zeta in Hrun. change (analyze_request imageB64 prompt mimeType) with req in Hrun.
  fold first second call1 call2 in Hrun.
  split; [|split; [|split]].
  - intros t Ht. now rewrite Hrun, Ht.
  - intros e He Hrl. now rewrite Hrun, He, Hrl.
  - intros e t He Hrl Ht. now rewrite Hrun, He, Hrl, Ht.
  - intros e e2 He Hrl He2. now rewrite Hrun, He, Hrl, He2.
Qed.

(** An empty prompt, one rate-limit failure, then an answer. *)
Lemma analyzeImage_fallback_policy_witness :
  analyzeImage "img" "" "image/jpeg" (failing_then 1 (text_response "a fox")) [] =
  (Return "a fox",
   [EvCall "gemini-3-flash-preview"
      (GenerateContent [inline_part "img" "image/jpeg";
                        text_part "Analyze this image in detail."]);
    EvDelay 1000;
    EvCall "gemini-2.5-flash-image"
      (GenerateContent [inline_part "img" "image/jpeg";
                        text_part "Analyze this image in detail."])]).
Proof.
  apply (proj1 (proj2 (proj2
           (analyzeImage_fallback_policy "img" "" "image/jpeg"
              (failing_then 1 (text_response "a fox")) [] eq_refl)))
         rate_limited "a fox"); reflexivity.
Defined.

(** ** Calls and waiting time *)

Lemma total_delay_retried (prompt : string) (k : nat) :
  (k <= 5)%nat ->
  (0 <= total_delay (retried generate_model prompt 5 k
                      ++ [EvCall generate_model (generate_request prompt)]) <= 30000)%Z.
Proof.
  intros Hk. destruct k as [|[|[|[|[|[|k]]]]]]; try lia; cbv; split; discriminate.
Qed.

(** X4: whatever the environment, the backend and the input, one run of
    [chatWithGemini] issues at most three calls and waits at most 2000 ms in
    all, [analyzeImage] at most two calls and 1000 ms, [editImage] at most two
    calls and 2000 ms, [generateImage] at most six calls and 30000 ms. *)
Theorem calls_and_waiting_bounds (env : Env) :
  (forall message history,
      let tr := snd (chatWithGemini message history env []) in
      (issued tr <= 3)%nat /\ (0 <= total_delay tr <= 2000)%Z) /\
  (forall imageB64 prompt mimeType,
      let tr := snd (analyzeImage imageB64 prompt mimeType env []) in
      (issued tr <= 2)%nat /\ (0 <= total_delay tr <= 1000)%Z) /\
  (forall imageB64 prompt mimeType,
      let tr := snd (editImage imageB64 prompt mimeType env []) in
      (issued tr <= 2)%nat /\ (0 <= total_delay tr <= 2000)%Z) /\
  (forall prompt,
      let tr := snd (generateImage prompt env []) in
      (issued tr <= 6)%nat /\ (0 <= total_delay tr <= 30000)%Z).
Proof.
  destruct (has_credential env) eqn:Hk.
  - split; [|split; [|split]].
    + intros message history tr.
      pose proof (chat_loop_run env message chat_models Hk chat_models 0 None []
                    ltac:(discriminate) eq_refl) as Hrun.
      fold (chatWithGemini message history) in Hrun.
      destruct (FallbackRun_shape _ _ _ _ _ Hrun) as [n [[Hn1 Hn2] [Htr _]]].
      unfold tr. rewrite Htr. cbn [length chat_models] in Hn2.
      destruct n as [|[|[|[|n]]]]; try lia; cbv; repeat split; (lia || discriminate).
    + intros imageB64 prompt mimeType tr. unfold tr.
      rewrite (analyzeImage_run env _ _ _ [] Hk). cbv zeta.
      destruct (analyze_attempt_result _) as [t|e];
        [cbv; repeat split; (lia || discriminate)|].
      destruct (isRateLimit e); [|cbv; repeat split; (lia || discriminate)].
      destruct (analyze_attempt_result _); cbv; repeat split; (lia || discriminate).
    + intros imageB64 prompt mimeType tr. unfold tr.
      rewrite (editImage_run env _ _ _ [] Hk). cbv zeta.
      destruct (edit_attempt_result _) as [v|e];
        [cbv; repeat split; (lia || discriminate)|].
      destruct (isRateLimit e); [|cbv; repeat split; (lia || discriminate)].
      destruct (edit_attempt_result _); cbv; repeat split; (lia || discriminate).
    + intros prompt tr. unfold tr.
      destruct (generateImage_run prompt env [] Hk) as [ai ->]. cbn [snd].
      destruct (generateImageWithRetry_shape ai generate_model prompt env 5 [])
        as [k [Hle [-> _]]].
      cbn [app]. split; [rewrite issued_retried by reflexivity; lia|].
      now apply total_delay_retried.
  - split; [|split; [|split]]; intros; subst tr.
    + rewrite chat_without_credential by assumption. cbv. repeat split; (lia || discriminate).
    + rewrite analyze_without_credential by assumption.
      cbv. repeat split; (lia || discriminate).
    + rewrite edit_without_credential by assumption.
      cbv. repeat split; (lia || discriminate).
    + rewrite generate_without_credential by assumption.
      cbv. repeat split; (lia || discriminate).
Qed.

(** ** generateImage: what decides the result *)

(** X5: with the credential present, the completion of [generateImage] is
    decided by the outcome of its last call alone: the result extracted from
    its response, or the classification of its failure when it has no
    candidate or when the call failed.  Failures of earlier calls leave no
    mark on it; in particular, when all six calls fail the sixth failure is
    the one classified and raised. *)
Theorem generateImage_last_call_decides (prompt : string) (env : Env) :
  has_credential env = true ->
  let out := generateImage prompt env [] in
  let req := generate_request prompt in
  (1 <= issued (snd out))%nat /\
  fst out =
    match backend env (issued (snd out) - 1) generate_model req with
    | Responds r =>
        match generate_result r with
        | inl v => Return v
        | inr e => Throw (classify e)
        end
    | Fails e => Throw (classify e)
    end /\
  (forall e, (forall j, (j < 6)%nat -> backend env j generate_model req = Fails e) ->
     isRateLimit_generate e = true ->
     fst out = Throw (classify e) /\
     issued (snd out) = 6%nat /\
     delays (snd out) = [2000; 4000; 6000; 8000; 10000]%Z).
Proof.
  intros Hk out req. unfold out.
  destruct (generateImage_run prompt env [] Hk) as [ai ->]. cbn [fst snd].
  destruct (generateImageWithRetry_shape ai generate_model prompt env 5 [])
    as [k [Hle [Htr [Hfl [Hres Hstop]]]]].
  cbn [app] in Htr. change (issued [] + ?n)%nat with n in Hfl, Hres, Hstop.
  rewrite Htr, Hres, issued_retried by reflexivity.
  replace (S k - 1)%nat with k by lia. fold req.
  split; [lia|].
  split; [now destruct (backend env k generate_model req)|].
  intros e Hall Hrl.
  assert (k = 5)%nat as ->.
  { destruct (Nat.eq_dec k 5) as [|Hne]; [assumption|].
    specialize (Hstop ltac:(lia) e (Hall k ltac:(lia))). congruence. }
  rewrite (Hall 5%nat ltac:(lia)). repeat split.
Qed.

(** A backend that always fails with a rate limit. *)
Lemma generateImage_last_call_decides_witness :
  fst (generateImage "a red fox" (failing_then 6 blue_response) []) =
    Throw (classify rate_limited) /\
  issued (snd (generateImage "a red fox" (failing_then 6 blue_response) [])) = 6%nat /\
  delays (snd (generateImage "a red fox" (failing_then 6 blue_response) [])) =
    [2000; 4000; 6000; 8000; 10000]%Z.
Proof.
  apply (proj2 (proj2 (generateImage_last_call_decides "a red fox"
                         (failing_then 6 blue_response) eq_refl)) rate_limited);
    [|reflexivity].
  intros j Hj. cbn [failing_then failing_with backend].
  destruct (Nat.ltb_spec j 6); [reflexivity | lia].
Defined.

(** ** A rate limit that the retry test does not see *)

(** X6: with the credential present, a failure of the first call whose
    status (or code, when it has no status) is 429 but whose message contains
    none of "429", "quota", "Rate limit" and no API-key or safety marker is
    raised at once as RATE_LIMIT by [chatWithGemini], [analyzeImage] and
    [editImage]: one call, no delay, no second attempt, although candidates
    and attempts remain. *)
Theorem status_rate_limit_not_retried (env : Env) (e : JsError) :
  has_credential env = true ->
  is_429 (failure_status e) = true ->
  loose_rate_limit (err_message e) = false ->
  kind_by_rules (err_message e) (failure_status e) = RATE_LIMIT ->
  let rate_limit_error :=
    GeminiError "Rate limit exceeded. The system is currently busy. Please wait about 30-60 seconds before trying again."
                RATE_LIMIT None in
  (forall message history,
      backend env 0 "gemini-3.1-pro-preview" (SendMessage message) = Fails e ->
      chatWithGemini message history env [] =
      (Throw rate_limit_error, [EvCall "gemini-3.1-pro-preview" (SendMessage message)])) /\
  (forall imageB64 prompt mimeType,
      backend env 0 "gemini-3-flash-preview" (analyze_request imageB64 prompt mimeType)
        = Fails e ->
      analyzeImage imageB64 prompt mimeType env [] =
      (Throw rate_limit_error,
       [EvCall "gemini-3-flash-preview" (analyze_request imageB64 prompt mimeType)])) /\
  (forall imageB64 prompt mimeType,
      backend env 0 edit_model (edit_request imageB64 prompt mimeType) = Fails e ->
      editImage imageB64 prompt mimeType env [] =
      (Throw rate_limit_error, [EvCall edit_model (edit_request imageB64 prompt mimeType)])).
Proof.
  intros Hk H429 Hloose Hkind rate_limit_error.
  assert (Hrl : isRateLimit e = false) by now rewrite isRateLimit_loose.
  assert (Hcl : classify e = rate_limit_error).
  { unfold kind_by_rules in Hkind. unfold classify. fold (failure_status e).
    repeat rewrite (includes_default_message (err_message e)) by reflexivity.
    repeat match goal with
           | _ : context [if ?b then _ else _] |- _ => destruct b; try discriminate
           end; reflexivity. }
  split; [|split].
  - intros message history He. unfold chatWithGemini, chat_models. cbn [chat_loop].
    unfold try_catch. rewrite (chat_attempt_run env _ message [] Hk).
    change (issued []) with 0%nat. rewrite He. cbn [chat_attempt_result].
    rewrite Hrl. cbn [negb orb]. unfold handleGeminiError, throw. now rewrite Hcl.
  - intros imageB64 prompt mimeType He.
    rewrite (analyzeImage_run env _ _ _ [] Hk). cbv zeta.
    change (issued []) with 0%nat. rewrite He. cbn [analyze_attempt_result].
    now rewrite Hrl, Hcl.
  - intros imageB64 prompt mimeType He.
    rewrite (editImage_run env _ _ _ [] Hk). cbv zeta.
    change (issued []) with 0%nat. rewrite He. cbn [edit_attempt_result].
    now rewrite Hrl, Hcl.
Qed.

(** A failure with status 429 and the message "Too many requests". *)
Lemma status_rate_limit_not_retried_witness :
  chatWithGemini "hi" [] (failing_with status_only_429 3 (text_response "hello")) [] =
  (Throw (GeminiError "Rate limit exceeded. The system is currently busy. Please wait about 30-60 seconds before trying again."
                      RATE_LIMIT None),
   [EvCall "gemini-3.1-pro-preview" (SendMessage "hi")]).
Proof.
  apply (proj1 (status_rate_limit_not_retried
                  (failing_with status_only_429 3 (text_response "hello"))
                  status_only_429 eq_refl eq_refl eq_refl eq_refl) "hi" [] eq_refl).
Defined.

(** * Properties of the service without fallback *)

Lemma direct_classify_kind (e : JsError) :
  classified_kind (Direct.classify e) = Some (kind_by_rules (err_message e) (failure_status e)).
Proof.
  unfold Direct.classify, kind_by_rules, failure_status.
  repeat rewrite (includes_default_message (err_message e)) by reflexivity.
  repeat match goal with
         | |- context [if ?b then _ else _] => destruct b
         end; reflexivity.
Qed.

Lemma direct_classify_surfaced {A} (e : JsError) :
  @raises_surfaced_kind A (Throw (Direct.classify e)) = true.
Proof.
  unfold Direct.classify.
  repeat match goal with
         | |- context [if ?b then _ else _] => destruct b
         end; reflexivity.
Qed.

(** X7: the two variants of [handleGeminiError] give every failure the same
    kind, and the same error altogether unless the kind is RATE_LIMIT, where
    only the text of the message differs. *)
Theorem classify_variants_agree (e : JsError) :
  classified_kind (Direct.classify e) = classified_kind (classify e) /\
  (classified_kind (classify e) <> Some RATE_LIMIT -> Direct.classify e = classify e) /\
  (classified_kind (classify e) = Some RATE_LIMIT ->
   Direct.classify e =
     GeminiError "Rate limit exceeded. Please wait a moment before trying again."
                 RATE_LIMIT None /\
   classify e =
     GeminiError "Rate limit exceeded. The system is currently busy. Please wait about 30-60 seconds before trying again."
                 RATE_LIMIT None).
Proof.
  split; [now rewrite direct_classify_kind, classify_kind_by_rules|].
  unfold Direct.classify, classify.
  repeat match goal with
         | |- context [if ?b then _ else _] => destruct b
         end; cbn [classified_kind];
    (split; [intros H; try reflexivity; now contradiction H
            | intros H; try discriminate H; now split]).
Qed.

Lemma direct_chat_run (message : string) (history : list jsval) (env : Env) (tr : list Event) :
  has_credential env = true ->
  Direct.chatWithGemini message history env tr =
  (match backend env (issued tr) "gemini-3.1-pro-preview" (SendMessage message) with
   | Responds r =>
       if truthy_text (resp_text r) then
         Return (match resp_text r with Some t => t | None => "" end)
       else
         Throw (Direct.classify
                  (GeminiError
                     "The model returned an empty response, possibly due to safety filters."
                     EMPTY_RESPONSE None))
   | Fails e => Throw (Direct.classify e)
   end,
   tr ++ [EvCall "gemini-3.1-pro-preview" (SendMessage message)]).
Proof.
  intros Hk. destruct (getGeminiModel_with_credential env tr Hk) as [ai Hai].
  unfold Direct.chatWithGemini, try_catch, bind, send, call_backend. rewrite Hai.
  destruct (backend env (issued tr) _ _) as [r|e]; [|reflexivity].
  destruct (resp_text r) as [t|]; [|reflexivity].
  cbn [truthy_text]. destruct (t =? ""); reflexivity.
Qed.

Lemma direct_analyze_run (imageB64 prompt mimeType : string) (env : Env) (tr : list Event) :
  has_credential env = true ->
  Direct.analyzeImage imageB64 prompt mimeType env tr =
  (match analyze_attempt_result
           (backend env (issued tr) "gemini-3-flash-preview"
                    (analyze_request imageB64 prompt mimeType)) with
   | inl t => Return t
   | inr e => Throw (Direct.classify e)
   end,
   tr ++ [EvCall "gemini-3-flash-preview" (analyze_request imageB64 prompt mimeType)]).
Proof.
  intros Hk. destruct (getGeminiModel_with_credential env tr Hk) as [ai Hai].
  unfold Direct.analyzeImage, try_catch, bind, send, call_backend, analyze_attempt_result.
  rewrite Hai.
  destruct (backend env (issued tr) _ _) as [r|e]; [|reflexivity].
  destruct (resp_text r) as [t|]; [|reflexivity].
  cbn [truthy_text]. destruct (t =? ""); reflexivity.
Qed.

Lemma direct_edit_run (imageB64 prompt mimeType : string) (env : Env) (tr : list Event) :
  has_credential env = true ->
  Direct.editImage imageB64 prompt mimeType env tr =
  (match edit_attempt_result
           (backend env (issued tr) edit_model (edit_request imageB64 prompt mimeType)) with
   | inl v => Return v
   | inr e => Throw (Direct.classify e)
   end,
   tr ++ [EvCall edit_model (edit_request imageB64 prompt mimeType)]).
Proof.
  intros Hk. destruct (getGeminiModel_with_credential env tr Hk) as [ai Hai].
  unfold Direct.editImage, try_catch, bind, send, call_backend, edit_attempt_result.
  rewrite Hai. fold edit_model.
  destruct (backend env (issued tr) _ _) as [r|e]; [|reflexivity].
  unfold first_candidate_parts, candidate_parts.
  destruct (resp_candidates r) as [[|c cs]|]; reflexivity.
Qed.

Lemma direct_without_credential (env : Env) (tr : list Event) :
  has_credential env = false ->
  (forall message history,
      Direct.chatWithGemini message history env tr = (Throw missing_credential_error, tr)) /\
  (forall imageB64 prompt mimeType,
      Direct.analyzeImage imageB64 prompt mimeType env tr = (Throw missing_credential_error, tr)) /\
  (forall imageB64 prompt mimeType,
      Direct.editImage imageB64 prompt mimeType env tr = (Throw missing_credential_error, tr)).
Proof.
  intros Hk. repeat split; intros;
    unfold Direct.chatWithGemini, Direct.analyzeImage, Direct.editImage, try_catch, bind;
    now rewrite (getGeminiModel_without_credential env tr Hk).
Qed.

(** X8: in the variant without fallback, whatever the backend answers, each
    operation issues exactly one call when the credential is present and
    none when it is missing, never waits, and raises only errors of the five
    surfaced kinds: a rate-limit failure is raised at once, and the
    EMPTY_RESPONSE and NO_CANDIDATES errors never reach a caller. *)
Theorem direct_single_attempt (env : Env) :
  let calls := if has_credential env then 1%nat else 0%nat in
  (forall message history,
      let out := Direct.chatWithGemini message history env [] in
      issued (snd out) = calls /\ delays (snd out) = [] /\
      raises_surfaced_kind (fst out) = true) /\
  (forall imageB64 prompt mimeType,
      let out := Direct.analyzeImage imageB64 prompt mimeType env [] in
      issued (snd out) = calls /\ delays (snd out) = [] /\
      raises_surfaced_kind (fst out) = true) /\
  (forall imageB64 prompt mimeType,
      let out := Direct.editImage imageB64 prompt mimeType env [] in
      issued (snd out) = calls /\ delays (snd out) = [] /\
      raises_surfaced_kind (fst out) = true).
Proof.
  destruct (has_credential env) eqn:Hk; cbv zeta.
  - split; [|split].
    + intros message history. rewrite (direct_chat_run message history env [] Hk).
      cbn [fst snd app]. split; [reflexivity|]. split; [reflexivity|].
      destruct (backend env _ _ _) as [r|e]; [|apply direct_classify_surfaced].
      destruct (truthy_text (resp_text r)); reflexivity.
    + intros imageB64 prompt mimeType.
      rewrite (direct_analyze_run imageB64 prompt mimeType env [] Hk).
      cbn [fst snd app]. split; [reflexivity|]. split; [reflexivity|].
      destruct (analyze_attempt_result _); [reflexivity | apply direct_classify_surfaced].
    + intros imageB64 prompt mimeType.
      rewrite (direct_edit_run imageB64 prompt mimeType env [] Hk).
      cbn [fst snd app]. split; [reflexivity|]. split; [reflexivity|].
      destruct (edit_attempt_result _); [reflexivity | apply direct_classify_surfaced].
  - destruct (direct_without_credential env [] Hk) as [Hc [Ha He]].
    split; [|split]; intros; rewrite ?Hc, ?Ha, ?He; repeat split.
Qed.

Lemma same_outcome_classify {A} (e : JsError) :
  @same_outcome A (Throw (classify e)) (Throw (Direct.classify e)).
Proof. cbn [same_outcome]. now rewrite direct_classify_kind, classify_kind_by_rules. Qed.

(** X9: the operations with fallback and retry behave as the variant
    without them whenever the first call does not fail with a failure that
    the retry test flags: the traces are equal, and the completions are the
    same returned value or errors of the same kind.  This holds with or
    without the credential. *)
Theorem fallback_agrees_with_direct (env : Env) :
  (forall message history,
      (forall e, backend env 0 "gemini-3.1-pro-preview" (SendMessage message) = Fails e ->
                 isRateLimit e = false) ->
      snd (chatWithGemini message history env []) =
        snd (Direct.chatWithGemini message history env []) /\
      same_outcome (fst (chatWithGemini message history env []))
                   (fst (Direct.chatWithGemini message history env []))) /\
  (forall imageB64 prompt mimeType,
      (forall e, backend env 0 "gemini-3-flash-preview"
                         (analyze_request imageB64 prompt mimeType) = Fails e ->
                 isRateLimit e = false) ->
      snd (analyzeImage imageB64 prompt mimeType env []) =
        snd (Direct.analyzeImage imageB64 prompt mimeType env []) /\
      same_outcome (fst (analyzeImage imageB64 prompt mimeType env []))
                   (fst (Direct.analyzeImage imageB64 prompt mimeType env []))) /\
  (forall imageB64 prompt mimeType,
      (forall e, backend env 0 edit_model (edit_request imageB64 prompt mimeType) = Fails e ->
                 isRateLimit e = false) ->
      snd (editImage imageB64 prompt mimeType env []) =
        snd (Direct.editImage imageB64 prompt mimeType env []) /\
      same_outcome (fst (editImage imageB64 prompt mimeType env []))
                   (returning_defined (fst (Direct.editImage imageB64 prompt mimeType env [])))).
Proof.
  destruct (has_credential env) eqn:Hk.
  - split; [|split].
    + intros message history Hno.
      rewrite (direct_chat_run message history env [] Hk).
      unfold chatWithGemini, chat_models. cbn [chat_loop]. unfold try_catch.
      rewrite (chat_attempt_run env _ message [] Hk). change (issued []) with 0%nat in *.
      destruct (backend env 0 "gemini-3.1-pro-preview" (SendMessage message)) as [r|e].
      * cbn [chat_attempt_result]. destruct (truthy_text (resp_text r)); split; reflexivity.
      * cbn [chat_attempt_result]. rewrite (Hno e eq_refl). cbn [negb orb fst snd].
        split; [reflexivity | apply same_outcome_classify].
    + intros imageB64 prompt mimeType Hno.
      rewrite (direct_analyze_run imageB64 prompt mimeType env [] Hk).
      rewrite (analyzeImage_run env _ _ _ [] Hk). cbv zeta. change (issued []) with 0%nat in *.
      destruct (backend env 0 "gemini-3-flash-preview"
                        (analyze_request imageB64 prompt mimeType)) as [r|e].
      * cbn [analyze_attempt_result]. destruct (truthy_text (resp_text r)); cbn [fst snd].
        -- split; reflexivity.
        -- split; [reflexivity | apply same_outcome_classify].
      * cbn [analyze_attempt_result]. rewrite (Hno e eq_refl). cbn [fst snd].
        split; [reflexivity | apply same_outcome_classify].
    + intros imageB64 prompt mimeType Hno.
      rewrite (direct_edit_run imageB64 prompt mimeType env [] Hk).
      rewrite (editImage_run env _ _ _ [] Hk). cbv zeta. change (issued []) with 0%nat in *.
      destruct (backend env 0 edit_model (edit_request imageB64 prompt mimeType)) as [r|e].
      * cbn [edit_attempt_result].
        destruct (resp_candidates r) as [[|c cs]|]; cbn [fst snd returning_defined];
          (split; [reflexivity | try reflexivity;
                                 apply (@same_outcome_classify (option EditResult))]).
      * cbn [edit_attempt_result]. rewrite (Hno e eq_refl). cbn [fst snd returning_defined].
        split; [reflexivity | apply (@same_outcome_classify (option EditResult))].
  - destruct (direct_without_credential env [] Hk) as [Hc [Ha He]].
    split; [|split]; intros.
    + rewrite Hc, chat_without_credential by assumption. split; reflexivity.
    + rewrite Ha, analyze_without_credential by assumption. split; reflexivity.
    + rewrite He, edit_without_credential by assumption. split; reflexivity.
Qed.

(** * Properties of the chat interface *)

(** ** Message identifiers *)

Lemma number_toString_injective (n m : Z) :
  number_toString n = number_toString m -> n = m.
Proof.
  unfold number_toString. intros H.
  assert (Hnil : forall z, Z.to_int z <> Decimal.Pos Decimal.Nil /\
                           Z.to_int z <> Decimal.Neg Decimal.Nil).
  { intros z. split; intros Hz.
    - assert (z = 0%Z) as -> by (rewrite <- (DecimalZ.of_to z), Hz; reflexivity).
      discriminate Hz.
    - assert (z = 0%Z) as -> by (rewrite <- (DecimalZ.of_to z), Hz; reflexivity).
      discriminate Hz. }
  assert (Hint : Z.to_int n = Z.to_int m).
  { destruct (Hnil n) as [Hn1 Hn2]. destruct (Hnil m) as [Hm1 Hm2].
    pose proof (DecimalString.NilZero.isi _ Hn1 Hn2) as Hn.
    pose proof (DecimalString.NilZero.isi _ Hm1 Hm2) as Hm.
    rewrite H in Hn. congruence. }
  now rewrite <- (DecimalZ.of_to n), <- (DecimalZ.of_to m), Hint.
Qed.

(** ** Running the handler *)

Lemma handleSubmit_run (trim : string -> string) (svc : GeminiService) (t_submit t_done : Z)
      (st : UIState) (env : Env) (tr : list Event) :
  submit_blocked trim st = false ->
  handleSubmit trim svc t_submit t_done st env tr =
  let pending :=
    mkUIState (messages st ++ [userMessage t_submit st]) "" true
              (selectedImage st) (imageMimeType st) (isEditingMode st) in
  let finish (after : UIState) :=
    mkUIState (messages after) (input after) false (selectedImage after)
              (imageMimeType after) (isEditingMode after) in
  match request_reply svc st env tr with
  | (Return reply, tr') =>
      (Return (finish (show_reply t_done pending (fst reply) (snd reply))), tr')
  | (Throw error, tr') => (Return (finish (show_error t_done pending error)), tr')
  | (OutOfFuel, tr') => (OutOfFuel, tr')
  end.
Proof.
  intros Hgo. unfold handleSubmit. rewrite Hgo. unfold bind, try_catch, ret.
  destruct (request_reply svc st env tr) as [[reply|error|] tr']; reflexivity.
Qed.

Lemma kind_code_shown (k : ErrorKind) : str_or (kind_code k) "GEMINI_ERROR" = kind_code k.
Proof. destruct k; reflexivity. Qed.

(** ** What the operations hand to the interface *)

Lemma answers_classify {A} (e : JsError) : @answers A (Throw (classify e)).
Proof.
  right. unfold classify.
  repeat match goal with
         | |- context [if ?b then _ else _] => destruct b
         end; repeat eexists.
Qed.

Lemma answers_direct_classify {A} (e : JsError) : @answers A (Throw (Direct.classify e)).
Proof.
  right. unfold Direct.classify.
  repeat match goal with
         | |- context [if ?b then _ else _] => destruct b
         end; repeat eexists.
Qed.

Lemma answers_defined_throw {A} (e : JsError) :
  @answers (option A) (Throw e) -> @answers_defined A (Throw e).
Proof. intros [[a Ha]|H]; [discriminate | now right]. Qed.

Lemma answers_throw {A B} (e : JsError) : @answers A (Throw e) -> @answers B (Throw e).
Proof.
  intros [[a Ha]|[m [k [d [Heq Hs]]]]]; [discriminate|].
  injection Heq as ->. right. now exists m, k, d.
Qed.

Lemma answers_of_defined_throw {A B} (e : JsError) :
  @answers_defined A (Throw e) -> @answers B (Throw e).
Proof.
  intros [[a Ha]|[m [k [d [Heq Hs]]]]]; [discriminate|].
  injection Heq as ->. right. now exists m, k, d.
Qed.

Lemma answers_missing_credential {A} : @answers A (Throw missing_credential_error).
Proof. right. now repeat eexists. Qed.

Lemma FallbackRun_answers (env : Env) (message : string) (models : list string)
      (tr : list Event) (out : Completion string * list Event) :
  FallbackRun env message models tr out -> answers (fst out).
Proof.
  induction 1; cbn [fst]; [left; now eexists | apply answers_classify | assumption].
Qed.

Lemma fallback_service_answers (env : Env) (tr : list Event) :
  (forall message history, answers (fst (chatWithGemini message history env tr))) /\
  (forall imageB64 prompt mimeType,
      answers (fst (analyzeImage imageB64 prompt mimeType env tr))) /\
  (forall imageB64 prompt mimeType,
      answers_defined (fst (editImage imageB64 prompt mimeType env tr))).
Proof.
  destruct (has_credential env) eqn:Hk.
  - split; [|split].
    + intros message history.
      apply (FallbackRun_answers env message chat_models tr).
      unfold chatWithGemini. apply chat_loop_run; [assumption | discriminate | reflexivity].
    + intros imageB64 prompt mimeType.
      rewrite (analyzeImage_run env _ _ _ tr Hk). cbv zeta.
      destruct (analyze_attempt_result _) as [t|e]; [left; now eexists|].
      destruct (isRateLimit e); [|apply answers_classify].
      destruct (analyze_attempt_result _) as [t|e2];
        [left; now eexists | apply answers_classify].
    + intros imageB64 prompt mimeType.
      rewrite (editImage_run env _ _ _ tr Hk). cbv zeta.
      destruct (edit_attempt_result _) as [v|e]; [left; now eexists|].
      destruct (isRateLimit e); [|apply answers_defined_throw, answers_classify].
      destruct (edit_attempt_result _) as [v|e2];
        [left; now eexists | apply answers_defined_throw, answers_classify].
  - split; [|split]; intros.
    + rewrite chat_without_credential by assumption. apply answers_missing_credential.
    + rewrite analyze_without_credential by assumption. apply answers_missing_credential.
    + rewrite edit_without_credential by assumption.
      apply answers_defined_throw, answers_missing_credential.
Qed.

Lemma direct_service_answers (env : Env) (tr : list Event) :
  (forall message history, answers (fst (Direct.chatWithGemini message history env tr))) /\
  (forall imageB64 prompt mimeType,
      answers (fst (Direct.analyzeImage imageB64 prompt mimeType env tr))) /\
  (forall imageB64 prompt mimeType,
      answers_defined
        (fst ((r <- Direct.editImage imageB64 prompt mimeType ;; ret (Some r)) env tr))).
Proof.
  destruct (has_credential env) eqn:Hk.
  - split; [|split].
    + intros message history. rewrite (direct_chat_run message history env tr Hk). cbn [fst].
      destruct (backend env _ _ _) as [r|e]; [|apply answers_direct_classify].
      destruct (truthy_text (resp_text r)); [left; now eexists | apply answers_direct_classify].
    + intros imageB64 prompt mimeType.
      rewrite (direct_analyze_run imageB64 prompt mimeType env tr Hk). cbn [fst].
      destruct (analyze_attempt_result _); [left; now eexists | apply answers_direct_classify].
    + intros imageB64 prompt mimeType. unfold bind.
      rewrite (direct_edit_run imageB64 prompt mimeType env tr Hk).
      destruct (edit_attempt_result _); cbn [fst];
        [left; now eexists | apply answers_defined_throw, answers_direct_classify].
  - destruct (direct_without_credential env tr Hk) as [Hc [Ha He]].
    split; [|split]; intros.
    + rewrite Hc. apply answers_missing_credential.
    + rewrite Ha. apply answers_missing_credential.
    + unfold bind. rewrite He. apply answers_defined_throw, answers_missing_credential.
Qed.

(** The reply requested by the handler, for either variant of the service:
    a text with an optional image, or a classified error. *)
Lemma request_reply_answers (svc : GeminiService) (st : UIState) (env : Env) (tr : list Event) :
  svc = fallback_service \/ svc = direct_service ->
  answers (fst (request_reply svc st env tr)).
Proof.
  intros Hsvc.
  assert (Hans :
    (forall message history, answers (fst (svc_chatWithGemini svc message history env tr))) /\
    (forall imageB64 prompt mimeType,
        answers (fst (svc_analyzeImage svc imageB64 prompt mimeType env tr))) /\
    (forall imageB64 prompt mimeType,
        answers_defined (fst (svc_editImage svc imageB64 prompt mimeType env tr)))).
  { destruct Hsvc as [-> | ->];
      [apply fallback_service_answers | apply direct_service_answers]. }
  destruct Hans as [Hc [Ha He]].
  assert (Hchat : answers (fst ((responseText <- svc_chatWithGemini svc (input st) [] ;;
                                 ret (responseText, @None string)) env tr))).
  { unfold bind. specialize (Hc (input st) []).
    destruct (svc_chatWithGemini svc (input st) [] env tr) as [[t|e|] tr']; cbn [fst] in *.
    - left. now eexists.
    - now apply (answers_throw e Hc).
    - destruct Hc as [[a Ha']|[m [k [d [H _]]]]]; discriminate. }
  unfold request_reply. destruct (selectedImage st) as [img|]; [|exact Hchat].
  destruct (truthy_text (Some img)); [|exact Hchat].
  destruct (isEditingMode st).
  - unfold bind. specialize (He img (str_or (input st) "Enhance this image") "image/png").
    destruct (svc_editImage svc img _ "image/png" env tr) as [[[r|]|e|] tr']; cbn [fst] in *.
    + left. now eexists.
    + destruct He as [[a Ha']|[m [k [d [H _]]]]]; discriminate.
    + now apply (answers_of_defined_throw e He).
    + destruct He as [[a Ha']|[m [k [d [H _]]]]]; discriminate.
  - unfold bind. specialize (Ha img (input st) "image/png").
    destruct (svc_analyzeImage svc img (input st) "image/png" env tr) as [[t|e|] tr'];
      cbn [fst] in *.
    + left. now eexists.
    + now apply (answers_throw e Ha).
    + destruct Ha as [[a Ha']|[m [k [d [H _]]]]]; discriminate.
Qed.

(** ** One submission, one turn *)

(** X10: with either variant of the service, for every state, backend and
    clock, a submission that the handler blocks (nothing to send, or a
    request under way) changes nothing and issues no call; any other
    submission ends with exactly two messages appended, the user's and one
    assistant message, the input cleared and the loading flag off.  The
    assistant message is either the reply, or an error message that shows the
    message and the code of a classified error of a surfaced kind: the generic
    text for unknown failures and the code "GEMINI_ERROR" are never shown.
    After an error the attached image and its type are unchanged. *)
Theorem handleSubmit_one_turn (trim : string -> string) (svc : GeminiService)
        (t_submit t_done : Z) (st : UIState) (env : Env) (tr : list Event) :
  svc = fallback_service \/ svc = direct_service ->
  (submit_blocked trim st = true ->
   handleSubmit trim svc t_submit t_done st env tr = (Return st, tr)) /\
  (submit_blocked trim st = false ->
   exists reply st',
     handleSubmit trim svc t_submit t_done st env tr =
       (Return st', snd (request_reply svc st env tr)) /\
     messages st' = messages st ++ [userMessage t_submit st; reply] /\
     msg_role reply = assistant /\
     input st' = "" /\ isLoading st' = false /\ isEditingMode st' = isEditingMode st /\
     ((msg_isError reply = false /\ msg_errorCode reply = None /\
       exists img, fst (request_reply svc st env tr) = Return (msg_content reply, img)) \/
      (msg_isError reply = true /\ msg_image reply = None /\
       selectedImage st' = selectedImage st /\ imageMimeType st' = imageMimeType st /\
       exists code details,
         fst (request_reply svc st env tr) = Throw (GeminiError (msg_content reply) code details) /\
         surfaced code = true /\
         msg_errorCode reply = Some (kind_code code)))).
Proof.
  intros Hsvc. split.
  - intros Hblocked. unfold handleSubmit. now rewrite Hblocked.
  - intros Hgo. rewrite (handleSubmit_run trim svc t_submit t_done st env tr Hgo). cbv zeta.
    pose proof (request_reply_answers svc st env tr Hsvc) as Hans.
    destruct (request_reply svc st env tr) as [[[text img]|error|] tr']; cbn [fst snd] in *.
    + unfold show_reply. cbn [messages isEditingMode input isLoading].
      destruct img as [img|];
        [destruct (truthy_text (Some img))|];
        try destruct (negb (isEditingMode st));
        (eexists; eexists; split; [reflexivity|];
         cbn [messages input isLoading isEditingMode];
         split; [rewrite <- app_assoc; reflexivity|];
         repeat split; left; repeat split; now eexists).
    + destruct Hans as [[a Ha]|[m [k [d [Heq Hs]]]]]; [discriminate|].
      injection Heq as ->.
      eexists. eexists. split; [reflexivity|].
      cbn [show_error messages input isLoading isEditingMode selectedImage imageMimeType
           fst snd].
      split; [rewrite <- app_assoc; reflexivity|].
      repeat split. right. repeat split.
      exists k, d. rewrite kind_code_shown. now repeat split.
    + destruct Hans as [[a Ha]|[m [k [d [Heq _]]]]]; discriminate.
Qed.

(** The first submission through the service with fallback, with an image
    attached in editing mode and a backend that answers with an image. *)
Lemma handleSubmit_one_turn_witness :
  exists reply st',
    handleSubmit no_trim fallback_service 1700000000000 1700000000500 editing_state
                 (failing_then 0 blue_response) [] =
      (Return st', snd (request_reply fallback_service editing_state
                                      (failing_then 0 blue_response) [])) /\
    messages st' = messages editing_state
                   ++ [userMessage 1700000000000 editing_state; reply] /\
    msg_role reply = assistant.
Proof.
  destruct (proj2 (handleSubmit_one_turn no_trim fallback_service 1700000000000 1700000000500
                     editing_state (failing_then 0 blue_response) [] (or_introl eq_refl))
                  eq_refl)
    as [reply [st' [Hrun [Hmsgs [Hrole _]]]]].
  exists reply, st'. split; [exact Hrun|]. split; [exact Hmsgs | exact Hrole].
Defined.

(** ** What one submission sends to the backend *)

Lemma chat_shape (message : string) (history : list jsval) (env : Env) :
  exists n, (n <= 3)%nat /\
    snd (chatWithGemini message history env []) =
    attempts_events 1000 (SendMessage message) (firstn n chat_models).
Proof.
  destruct (has_credential env) eqn:Hk.
  - pose proof (chat_loop_run env message chat_models Hk chat_models 0 None []
                  ltac:(discriminate) eq_refl) as Hrun.
    fold (chatWithGemini message history) in Hrun.
    destruct (FallbackRun_shape _ _ _ _ _ Hrun) as [n [[_ Hn] [Htr _]]].
    exists n. split; [exact Hn | exact Htr].
  - exists 0%nat. rewrite chat_without_credential by assumption. split; [lia | reflexivity].
Qed.

Lemma analyze_shape (imageB64 prompt mimeType : string) (env : Env) :
  exists n, (n <= 2)%nat /\
    snd (analyzeImage imageB64 prompt mimeType env []) =
    attempts_events 1000 (analyze_request imageB64 prompt mimeType) (firstn n analyze_models).
Proof.
  destruct (has_credential env) eqn:Hk.
  - rewrite (analyzeImage_run env _ _ _ [] Hk). cbv zeta.
    destruct (analyze_attempt_result _) as [t|e];
      [exists 1%nat; split; [lia | reflexivity]|].
    destruct (isRateLimit e); [|exists 1%nat; split; [lia | reflexivity]].
    destruct (analyze_attempt_result _); exists 2%nat; (split; [lia | reflexivity]).
  - exists 0%nat. rewrite analyze_without_credential by assumption.
    split; [lia | reflexivity].
Qed.

Lemma edit_shape (imageB64 prompt mimeType : string) (env : Env) :
  exists n, (n <= 2)%nat /\
    snd (editImage imageB64 prompt mimeType env []) =
    attempts_events 2000 (edit_request imageB64 prompt mimeType)
                    (firstn n [edit_model; edit_model]).
Proof.
  destruct (has_credential env) eqn:Hk.
  - rewrite (editImage_run env _ _ _ [] Hk). cbv zeta.
    destruct (edit_attempt_result _) as [v|e];
      [exists 1%nat; split; [lia | reflexivity]|].
    destruct (isRateLimit e); [|exists 1%nat; split; [lia | reflexivity]].
    destruct (edit_attempt_result _); exists 2%nat; (split; [lia | reflexivity]).
  - exists 0%nat. rewrite edit_without_credential by assumption.
    split; [lia | reflexivity].
Qed.

Lemma handleSubmit_trace (trim : string -> string) (svc : GeminiService) (t_submit t_done : Z)
      (st : UIState) (env : Env) (tr : list Event) :
  submit_blocked trim st = false ->
  snd (handleSubmit trim svc t_submit t_done st env tr) = snd (request_reply svc st env tr).
Proof.
  intros Hgo. rewrite (handleSubmit_run trim svc t_submit t_done st env tr Hgo). cbv zeta.
  now destruct (request_reply svc st env tr) as [[reply|error|] tr'].
Qed.

(** X11: what a submission that is not blocked sends through the service
    with fallback.  With an image attached and editing mode on, it is the
    edit request, to the edit model, at most twice with a 2000 ms delay in
    between; with an image attached and editing mode off, the analysis
    request, to the first analysis candidates in order, at most two; without
    an image, the chat message to the first chat candidates, at most three.
    The image is always declared as "image/png", whatever the type recorded
    for the attached file; an empty input becomes "Enhance this image" for
    an edit and "Analyze this image in detail." for an analysis. *)
Theorem handleSubmit_traffic (trim : string -> string) (t_submit t_done : Z)
        (st : UIState) (env : Env) :
  submit_blocked trim st = false ->
  let sent := snd (handleSubmit trim fallback_service t_submit t_done st env []) in
  (forall img, selectedImage st = Some img -> img <> "" -> isEditingMode st = true ->
     exists n, (n <= 2)%nat /\
       sent = attempts_events 2000
                (GenerateContent
                   [inline_part img "image/png";
                    text_part (if input st =? "" then "Enhance this image" else input st)])
                (firstn n [edit_model; edit_model])) /\
  (forall img, selectedImage st = Some img -> img <> "" -> isEditingMode st = false ->
     exists n, (n <= 2)%nat /\
       sent = attempts_events 1000
                (GenerateContent
                   [inline_part img "image/png";
                    text_part (if input st =? "" then "Analyze this image in detail."
                               else input st)])
                (firstn n analyze_models)) /\
  (truthy_text (selectedImage st) = false ->
     exists n, (n <= 3)%nat /\
       sent = attempts_events 1000 (SendMessage (input st)) (firstn n chat_models)).
Proof.
  intros Hgo sent. unfold sent. rewrite (handleSubmit_trace _ _ _ _ _ _ _ Hgo).
  unfold request_reply. split; [|split].
  - intros img Himg Hne Hmode. rewrite Himg, Hmode. cbn [truthy_text].
    destruct (String.eqb_spec img "") as [|_]; [contradiction|]. cbn [negb].
    destruct (edit_shape img (str_or (input st) "Enhance this image") "image/png" env)
      as [n [Hn Htr]].
    exists n. split; [exact Hn|].
    etransitivity; [|exact Htr]. unfold bind. cbn [svc_editImage fallback_service].
    now destruct (editImage img _ "image/png" env []) as [[[r|]|e|] tr'].
  - intros img Himg Hne Hmode. rewrite Himg, Hmode. cbn [truthy_text].
    destruct (String.eqb_spec img "") as [|_]; [contradiction|]. cbn [negb].
    destruct (analyze_shape img (input st) "image/png" env) as [n [Hn Htr]].
    exists n. split; [exact Hn|].
    etransitivity; [|exact Htr]. unfold bind. cbn [svc_analyzeImage fallback_service].
    now destruct (analyzeImage img (input st) "image/png" env []) as [[t|e|] tr'].
  - intros Hnone. destruct (chat_shape (input st) [] env) as [n [Hn Htr]].
    exists n. split; [exact Hn|]. rewrite <- Htr.
    assert (Hchat : snd ((responseText <- svc_chatWithGemini fallback_service (input st) [] ;;
                          ret (responseText, @None string)) env []) =
                    snd (chatWithGemini (input st) [] env [])).
    { unfold bind. cbn [svc_chatWithGemini fallback_service].
      now destruct (chatWithGemini (input st) [] env []) as [[t|e|] tr']. }
    destruct (selectedImage st) as [img|]; [|exact Hchat].
    rewrite Hnone. exact Hchat.
Qed.

(** An image attached with type "image/jpeg", in editing mode. *)
Lemma handleSubmit_traffic_witness :
  exists n, (n <= 2)%nat /\
    snd (handleSubmit no_trim fallback_service 1700000000000 1700000000500 editing_state
                      (failing_then 1 blue_response) []) =
    attempts_events 2000
      (GenerateContent [inline_part "img" "image/png"; text_part "make it blue"])
      (firstn n [edit_model; edit_model]).
Proof.
  apply (proj1 (handleSubmit_traffic no_trim 1700000000000 1700000000500 editing_state
                  (failing_then 1 blue_response) eq_refl) "img" eq_refl);
    [discriminate | reflexivity].
Defined.

(** ** The edited image is kept for the next edit *)

(** X12: through the service with fallback and with the credential present,
    a submission in editing mode whose first call is answered with an image
    appends an assistant message that shows this image as a PNG data URL,
    with the returned text or, when there is none, "I've processed your image
    edit request.", and makes this image the attached one, of type
    "image/png".  The next submission in this state, whatever is typed in
    between, starts with an edit request that carries the new image. *)
Theorem edited_image_feeds_next_edit (trim : string -> string) (t_submit t_done : Z)
        (st : UIState) (env : Env) (img img' : string) (r : Response) (c : Candidate)
        (cs : list Candidate) :
  has_credential env = true ->
  submit_blocked trim st = false ->
  selectedImage st = Some img -> img <> "" -> isEditingMode st = true ->
  backend env 0 edit_model
          (edit_request img (str_or (input st) "Enhance this image") "image/png") = Responds r ->
  resp_candidates r = Some (c :: cs) ->
  image_of_parts (candidate_parts c) = Some img' -> img' <> "" ->
  exists st',
    handleSubmit trim fallback_service t_submit t_done st env [] =
      (Return st',
       [EvCall edit_model
          (edit_request img (str_or (input st) "Enhance this image") "image/png")]) /\
    messages st' =
      messages st ++
      [userMessage t_submit st;
       mkMessage (number_toString (t_done + 1)) assistant
                 (str_or (text_of_parts (candidate_parts c))
                         "I've processed your image edit request.")
                 (Some (data_url "image/png" img')) false None] /\
    selectedImage st' = Some img' /\ imageMimeType st' = "image/png" /\
    isEditingMode st' = true /\ input st' = "" /\ isLoading st' = false /\
    (forall typed t_submit2 t_done2 tr,
        exists rest,
          snd (handleSubmit trim fallback_service t_submit2 t_done2 (setInput typed st') env tr) =
          tr ++ EvCall edit_model
                  (edit_request img' (str_or typed "Enhance this image") "image/png")
             :: rest).
Proof.
  intros Hk Hgo Himg Hne Hmode Hr Hc Himg' Hne'.
  assert (Htruthy : forall s, s <> "" -> truthy_text (Some s) = true).
  { intros s Hs. cbn [truthy_text]. now destruct (String.eqb_spec s ""). }
  rewrite (handleSubmit_run trim fallback_service t_submit t_done st env [] Hgo). cbv zeta.
  unfold request_reply. rewrite Himg, (Htruthy img Hne), Hmode.
  unfold bind at 1. cbn [svc_editImage fallback_service].
  rewrite (editImage_run env _ _ _ [] Hk). cbv zeta. change (issued []) with 0%nat.
  rewrite Hr. cbn [edit_attempt_result]. rewrite Hc, scan_parts_spec. cbn [fst snd app].
  unfold ret. cbn [fst snd textResponse editedImageB64]. rewrite Himg'.
  unfold show_reply. rewrite (Htruthy img' Hne').
  cbn [messages input isLoading selectedImage imageMimeType isEditingMode].
  eexists. split; [reflexivity|].
  cbn [messages input isLoading selectedImage imageMimeType isEditingMode].
  split; [now rewrite <- app_assoc|]. repeat split.
  intros typed t_submit2 t_done2 tr.
  match goal with
  | |- context [handleSubmit trim fallback_service t_submit2 t_done2 ?s env tr] =>
      set (next := s)
  end.
  assert (Hgo2 : submit_blocked trim next = false).
  { unfold submit_blocked, next. cbn [setInput input selectedImage isLoading].
    rewrite (Htruthy img' Hne'). cbn [negb]. now rewrite andb_false_r. }
  rewrite (handleSubmit_trace trim fallback_service t_submit2 t_done2 next env tr Hgo2).
  unfold request_reply, next. cbn [setInput input selectedImage isEditingMode].
  rewrite (Htruthy img' Hne'). unfold bind. cbn [svc_editImage fallback_service].
  rewrite (editImage_run env _ _ _ tr Hk). cbv zeta.
  destruct (edit_attempt_result _) as [v|e]; [eexists; reflexivity|].
  destruct (isRateLimit e); [|eexists; reflexivity].
  destruct (edit_attempt_result _) as [v|e2]; eexists; reflexivity.
Qed.

(** The first edit of the example state. *)
Lemma edited_image_feeds_next_edit_witness :
  exists st',
    handleSubmit no_trim fallback_service 1700000000000 1700000000500 editing_state
                 (failing_then 0 blue_response) [] =
      (Return st', [EvCall edit_model (edit_request "img" "make it blue" "image/png")]) /\
    selectedImage st' = Some "BLUE" /\ imageMimeType st' = "image/png".
Proof.
  destruct (edited_image_feeds_next_edit no_trim 1700000000000 1700000000500 editing_state
              (failing_then 0 blue_response) "img" "BLUE" blue_response
              (mkCandidate (Some [text_part "Here it is: "; inline_part "BLUE" "image/png";
                                  text_part "a blue image."]))
              [mkCandidate (Some [text_part "ignored"; inline_part "OTHER" "image/png"])]
              eq_refl eq_refl eq_refl ltac:(discriminate) eq_refl eq_refl eq_refl eq_refl
              ltac:(discriminate))
    as [st' [Hrun [_ [Hsel [Hmime _]]]]].
  exists st'. split; [exact Hrun|]. split; [exact Hsel | exact Hmime].
Defined.

(** ** Message identifiers of one turn *)

(** X13: for any service, when a submission that is not blocked completes,
    the two messages it appends carry the decimal renderings of the clock:
    after a reply the assistant message's identifier differs from the user
    message's whenever the clock did not go backwards, but after an error the
    two identifiers are equal when the failure came within the same
    millisecond. *)
Theorem message_ids_of_one_turn (trim : string -> string) (svc : GeminiService)
        (t_submit t_done : Z) (st st' : UIState) (env : Env) (tr : list Event) :
  submit_blocked trim st = false ->
  fst (handleSubmit trim svc t_submit t_done st env tr) = Return st' ->
  exists reply,
    messages st' = messages st ++ [userMessage t_submit st; reply] /\
    msg_id (userMessage t_submit st) = number_toString t_submit /\
    (msg_isError reply = false -> (t_submit <= t_done)%Z ->
     msg_id reply <> msg_id (userMessage t_submit st)) /\
    (msg_isError reply = true -> t_done = t_submit ->
     msg_id reply = msg_id (userMessage t_submit st)).
Proof.
  intros Hgo. rewrite (handleSubmit_run trim svc t_submit t_done st env tr Hgo). cbv zeta.
  destruct (request_reply svc st env tr) as [[[text img]|error|] tr']; cbn [fst snd];
    [| |discriminate]; intros [= <-].
  - unfold show_reply. cbn [messages isEditingMode].
    destruct img as [img|];
      [destruct (truthy_text (Some img))|];
      try destruct (negb (isEditingMode st));
      (eexists; cbn [messages]; split; [now rewrite <- app_assoc|];
       split; [reflexivity|]; cbn [msg_id msg_isError userMessage];
       split; [intros _ Hle Heq; apply number_toString_injective in Heq; lia
              | discriminate]).
  - eexists. cbn [show_error messages]. split; [now rewrite <- app_assoc|].
    split; [reflexivity|]. cbn [msg_id msg_isError userMessage].
    split; [discriminate | now intros _ ->].
Qed.

(** A submission without the credential, answered within the millisecond. *)
Lemma message_ids_of_one_turn_witness :
  exists reply,
    messages (mkUIState [greeting;
                         userMessage 1700000000000 (setInput "hi" initial_state);
                         mkMessage "1700000000000" assistant "GEMINI_API_KEY is not set" None
                                   true (Some "UNKNOWN_ERROR")]
                        "" false None "" false) =
    messages (setInput "hi" initial_state)
    ++ [userMessage 1700000000000 (setInput "hi" initial_state); reply] /\
    msg_id reply = msg_id (userMessage 1700000000000 (setInput "hi" initial_state)).
Proof.
  destruct (message_ids_of_one_turn no_trim fallback_service 1700000000000 1700000000000
              (setInput "hi" initial_state) _ no_credential_env [] eq_refl eq_refl)
    as [reply [Hmsgs [_ [_ Hsame]]]].
  exists reply. split; [exact Hmsgs|].
  apply Hsame; [|reflexivity].
  cbn [messages setInput initial_state app] in Hmsgs.
  injection Hmsgs as <-. reflexivity.
Defined.

(** ** Attaching an image *)

Lemma includes_comma_cons (c : ascii) (s : string) :
  includes (String c s) "," = Ascii.eqb c "," || includes s ",".
Proof.
  rewrite includes_unfold. cbn [prefix].
  destruct (ascii_dec "," c) as [<-|Hne].
  - now destruct s.
  - destruct (Ascii.eqb_spec c ","); [congruence | reflexivity].
Qed.

Lemma after_comma_append (x y : string) :
  includes x "," = false -> after_comma (x ++ y)%string = after_comma y.
Proof.
  induction x as [|c x IH]; [reflexivity|].
  rewrite includes_comma_cons. intros H. apply orb_false_iff in H as [Hc Hx].
  cbn [append after_comma]. rewrite Hc. now apply IH.
Qed.

Lemma after_comma_none (s : string) : includes s "," = false -> after_comma s = None.
Proof.
  induction s as [|c s IH]; [reflexivity|].
  rewrite includes_comma_cons. intros H. apply orb_false_iff in H as [Hc Hs].
  cbn [after_comma]. rewrite Hc. now apply IH.
Qed.

Lemma until_comma_free (s : string) : includes s "," = false -> until_comma s = s.
Proof.
  induction s as [|c s IH]; [reflexivity|].
  rewrite includes_comma_cons. intros H. apply orb_false_iff in H as [Hc Hs].
  cbn [until_comma]. rewrite Hc. now rewrite IH.
Qed.

(** X14: when the reader hands [handleImageUpload] the data URL
    [data:<type>;base64,<payload>] of a file whose type and payload contain
    no comma, the payload alone becomes the attached image and the file's
    type is recorded, so that the data URL shown with the next user message
    is the one that was read; the messages, the input and the mode are
    untouched.  A result without any comma attaches nothing. *)
Theorem upload_round_trip (mime payload : string) (st : UIState) :
  includes mime "," = false ->
  includes payload "," = false ->
  let st' := handleImageUpload (Some (mime, data_url mime payload)) st in
  selectedImage st' = Some payload /\
  imageMimeType st' = mime /\
  messages st' = messages st /\ input st' = input st /\
  isEditingMode st' = isEditingMode st /\
  (payload <> "" ->
   forall now, msg_image (userMessage now st') = Some (data_url mime payload)) /\
  (forall file_type result,
      includes result "," = false ->
      selectedImage (handleImageUpload (Some (file_type, result)) st) = None).
Proof.
  intros Hmime Hpayload st'.
  assert (Hsplit : split_comma_second (data_url mime payload) = Some payload).
  { unfold split_comma_second, data_url.
    change ("data:" ++ mime ++ ";base64," ++ payload)%string
      with ("data:" ++ (mime ++ (";base64" ++ String "," payload)))%string.
    rewrite (after_comma_append "data:") by reflexivity.
    rewrite (after_comma_append mime) by assumption.
    rewrite (after_comma_append ";base64") by reflexivity.
    cbn [after_comma Ascii.eqb Bool.eqb option_map].
    now rewrite until_comma_free. }
  unfold st'. cbn [handleImageUpload selectedImage imageMimeType messages input isEditingMode].
  rewrite Hsplit. repeat split.
  - intros Hne now. unfold userMessage.
    cbn [selectedImage imageMimeType truthy_text].
    now destruct (String.eqb_spec payload "").
  - intros file_type result Hresult. unfold split_comma_second.
    now rewrite after_comma_none.
Qed.

(** A JPEG file whose payload is "AAAA". *)
Lemma upload_round_trip_witness :
  selectedImage (handleImageUpload (Some ("image/jpeg", "data:image/jpeg;base64,AAAA"))
                                   initial_state) = Some "AAAA" /\
  imageMimeType (handleImageUpload (Some ("image/jpeg", "data:image/jpeg;base64,AAAA"))
                                   initial_state) = "image/jpeg".
Proof.
  destruct (upload_round_trip "image/jpeg" "AAAA" initial_state eq_refl eq_refl)
    as [Hsel [Hmime _]].
  split; [exact Hsel | exact Hmime].
Defined.

(** ** The conversation over a session *)

Lemma turns_append_turn (ms : list Message) (u a : Message) :
  turns ms = true -> msg_role u = user -> msg_role a = assistant ->
  turns (ms ++ [u; a]) = true.
Proof.
  intros Hms Hu Ha.
  assert (Hgen : forall n l, (length l <= n)%nat -> turns l = true ->
                             turns (l ++ [u; a]) = true).
  { induction n as [|n IH]; intros l Hlen Hl.
    - destruct l; [|cbn [length] in Hlen; lia]. cbn [app turns]. now rewrite Hu, Ha.
    - destruct l as [|x [|y l]]; [cbn [app turns]; now rewrite Hu, Ha | discriminate |].
      cbn [app turns] in *.
      destruct (msg_role x); [|discriminate]. destruct (msg_role y); [discriminate|].
      apply IH; [cbn [length] in Hlen; lia | assumption]. }
  now apply (Hgen (length ms)).
Qed.

Lemma userMessage_role (now : Z) (st : UIState) : msg_role (userMessage now st) = user.
Proof. reflexivity. Qed.

(** The conversation at rest: the greeting, then whole turns, and no request
    under way. *)
Lemma handle_event_keeps_conversation (trim : string -> string) (svc : GeminiService)
      (ev : UIEvent) (st : UIState) (env : Env) (tr : list Event) :
  svc = fallback_service \/ svc = direct_service ->
  isLoading st = false ->
  (exists rest, messages st = greeting :: rest /\ turns rest = true) ->
  exists st' tr',
    handle_event trim svc ev st env tr = (Return st', tr') /\
    isLoading st' = false /\
    (exists rest, messages st' = greeting :: rest /\ turns rest = true).
Proof.
  intros Hsvc Hidle [rest [Hmsgs Hturns]].
  destruct ev as [value | file | | | t_submit t_done]; cbn [handle_event].
  - eexists. eexists. split; [reflexivity|]. cbn [setInput isLoading messages].
    split; [assumption | now exists rest].
  - eexists. eexists. split; [reflexivity|].
    destruct file as [[file_type result]|]; cbn [handleImageUpload isLoading messages];
      (split; [assumption | now exists rest]).
  - destruct (truthy_text (selectedImage st));
      (eexists; eexists; split; [reflexivity|]; cbn [isLoading messages];
       split; [assumption | now exists rest]).
  - destruct (truthy_text (selectedImage st));
      (eexists; eexists; split; [reflexivity|]; cbn [isLoading messages];
       split; [assumption | now exists rest]).
  - destruct (submit_blocked trim st) eqn:Hgo.
    + unfold handleSubmit. rewrite Hgo. eexists. eexists. split; [reflexivity|].
      split; [assumption | now exists rest].
    + rewrite (handleSubmit_run trim svc t_submit t_done st env tr Hgo). cbv zeta.
      pose proof (request_reply_answers svc st env tr Hsvc) as Hans.
      destruct (request_reply svc st env tr) as [[[text img]|error|] tr']; cbn [fst snd] in *.
      * unfold show_reply. cbn [messages isEditingMode].
        destruct img as [img|];
          [destruct (truthy_text (Some img))|];
          try destruct (negb (isEditingMode st));
          (eexists; eexists; split; [reflexivity|]; cbn [isLoading messages];
           split; [reflexivity|];
           eexists (rest ++ [userMessage t_submit st; _]);
           rewrite Hmsgs, <- !app_assoc; split; [reflexivity|];
           now apply turns_append_turn).
      * eexists. eexists. split; [reflexivity|]. cbn [show_error isLoading messages].
        split; [reflexivity|].
        eexists (rest ++ [userMessage t_submit st; _]).
        rewrite Hmsgs, <- !app_assoc. split; [reflexivity|].
        now apply turns_append_turn.
      * destruct Hans as [[a Ha]|[m [k [d [Heq _]]]]]; discriminate.
Qed.

(** X15: over a whole session with either variant of the service, from the
    initial state and for any events (typing, attaching or removing an image,
    switching mode, submitting) and any backend, every handler completes, the
    component comes to rest with no request under way, and the conversation
    is the greeting followed by whole turns: a user message, then one
    assistant message, with nothing lost and nothing appended twice. *)
Theorem session_keeps_turns (trim : string -> string) (svc : GeminiService)
        (evs : list UIEvent) (env : Env) (tr : list Event) :
  svc = fallback_service \/ svc = direct_service ->
  exists st tr' rest,
    run_events trim svc evs initial_state env tr = (Return st, tr') /\
    isLoading st = false /\
    messages st = greeting :: rest /\
    turns rest = true.
Proof.
  intros Hsvc.
  assert (Hgen : forall evs st tr,
            isLoading st = false ->
            (exists rest, messages st = greeting :: rest /\ turns rest = true) ->
            exists st' tr' rest,
              run_events trim svc evs st env tr = (Return st', tr') /\
              isLoading st' = false /\ messages st' = greeting :: rest /\ turns rest = true).
  { clear evs tr. induction evs as [|ev evs IH]; intros st tr Hidle Hconv.
    - destruct Hconv as [rest [Hmsgs Hturns]]. exists st, tr, rest. now repeat split.
    - destruct (handle_event_keeps_conversation trim svc ev st env tr Hsvc Hidle Hconv)
        as [st1 [tr1 [Hstep [Hidle1 Hconv1]]]].
      cbn [run_events]. unfold bind. rewrite Hstep. now apply IH. }
  apply Hgen; [reflexivity | exists []; now split].
Qed.

(** Two submissions without the credential, with typing in between. *)
Lemma session_keeps_turns_witness :
  exists st tr' rest,
    run_events no_trim fallback_service
               [Typed "hi"; Submitted 1700000000000 1700000000000;
                Typed "again"; Submitted 1700000001000 1700000001000]
               initial_state no_credential_env [] = (Return st, tr') /\
    isLoading st = false /\
    messages st = greeting :: rest /\
    turns rest = true.
Proof.
  apply (session_keeps_turns no_trim fallback_service _ no_credential_env []
                             (or_introl eq_refl)).
Defined.

(** ** After an analysis *)

(** X16: through the service with fallback and with the credential present,
    a submission in analysis mode whose first call is answered with a text
    appends that text as the assistant message, without image, and detaches
    the image; from the state reached, a submission whose input is blank is
    blocked: it changes nothing and issues no call. *)
Theorem analysis_detaches_image (trim : string -> string) (t_submit t_done : Z)
        (st : UIState) (env : Env) (img t : string) (r : Response) :
  has_credential env = true ->
  submit_blocked trim st = false ->
  selectedImage st = Some img -> img <> "" -> isEditingMode st = false ->
  backend env 0 "gemini-3-flash-preview" (analyze_request img (input st) "image/png")
    = Responds r ->
  resp_text r = Some t -> t <> "" ->
  exists st',
    handleSubmit trim fallback_service t_submit t_done st env [] =
      (Return st',
       [EvCall "gemini-3-flash-preview" (analyze_request img (input st) "image/png")]) /\
    messages st' =
      messages st ++
      [userMessage t_submit st;
       mkMessage (number_toString (t_done + 1)) assistant t None false None] /\
    selectedImage st' = None /\ isEditingMode st' = false /\
    (forall typed t_submit2 t_done2 tr,
        trim typed = "" ->
        handleSubmit trim fallback_service t_submit2 t_done2 (setInput typed st') env tr =
        (Return (setInput typed st'), tr)).
Proof.
  intros Hk Hgo Himg Hne Hmode Hr Ht Hnet.
  rewrite (handleSubmit_run trim fallback_service t_submit t_done st env [] Hgo). cbv zeta.
  unfold request_reply. rewrite Himg, Hmode. cbn [truthy_text].
  destruct (String.eqb_spec img "") as [|_]; [contradiction|]. cbn [negb].
  unfold bind at 1. cbn [svc_analyzeImage fallback_service].
  rewrite (analyzeImage_run env _ _ _ [] Hk). cbv zeta. change (issued []) with 0%nat.
  rewrite Hr. cbn [analyze_attempt_result]. rewrite Ht. cbn [truthy_text].
  destruct (String.eqb_spec t "") as [|_]; [contradiction|]. cbn [negb app].
  unfold ret. cbn [fst snd]. unfold show_reply.
  cbn [messages input isLoading selectedImage imageMimeType isEditingMode negb].
  eexists. split; [reflexivity|].
  cbn [messages input isLoading selectedImage imageMimeType isEditingMode].
  split; [now rewrite <- app_assoc|]. repeat split.
  intros typed t_submit2 t_done2 tr Hblank. unfold handleSubmit, submit_blocked.
  cbn [setInput input selectedImage isLoading truthy_text]. now rewrite Hblank.
Qed.

(** The analysis of the example state, answered "a fox". *)
Lemma analysis_detaches_image_witness :
  exists st',
    handleSubmit no_trim fallback_service 1700000000000 1700000000500 analysis_state
                 (failing_then 0 (text_response "a fox")) [] =
      (Return st',
       [EvCall "gemini-3-flash-preview" (analyze_request "img" "what is this?" "image/png")]) /\
    selectedImage st' = None.
Proof.
  destruct (analysis_detaches_image no_trim 1700000000000 1700000000500 analysis_state
              (failing_then 0 (text_response "a fox")) "img" "a fox" (text_response "a fox")
              eq_refl eq_refl eq_refl ltac:(discriminate) eq_refl eq_refl eq_refl
              ltac:(discriminate))
    as [st' [Hrun [_ [Hsel _]]]].
  exists st'. split; [exact Hrun | exact Hsel].
Defined.

(** ** Submitting without the credential *)

Lemma request_reply_without_credential (svc : GeminiService) (st : UIState) (env : Env)
      (tr : list Event) :
  svc = fallback_service \/ svc = direct_service ->
  has_credential env = false ->
  request_reply svc st env tr = (Throw missing_credential_error, tr).
Proof.
  intros Hsvc Hk.
  assert (Hops :
    (forall message history,
        svc_chatWithGemini svc message history env tr = (Throw missing_credential_error, tr)) /\
    (forall imageB64 prompt mimeType,
        svc_analyzeImage svc imageB64 prompt mimeType env tr
        = (Throw missing_credential_error, tr)) /\
    (forall imageB64 prompt mimeType,
        svc_editImage svc imageB64 prompt mimeType env tr
        = (Throw missing_credential_error, tr))).
  { destruct Hsvc as [-> | ->]; cbn [svc_chatWithGemini svc_analyzeImage svc_editImage
                                     fallback_service direct_service].
    - split; [|split]; intros.
      + now apply chat_without_credential.
      + now apply analyze_without_credential.
      + now apply edit_without_credential.
    - destruct (direct_without_credential env tr Hk) as [Hc [Ha He]].
      split; [exact Hc|]. split; [exact Ha|].
      intros. unfold bind. now rewrite He. }
  destruct Hops as [Hc [Ha He]].
  unfold request_reply, bind.
  destruct (selectedImage st) as [img|]; [|now rewrite Hc].
  destruct (truthy_text (Some img)); [|now rewrite Hc].
  destruct (isEditingMode st); [now rewrite He | now rewrite Ha].
Qed.

(** X17: with either variant of the service, when the credential is missing
    every submission that is not blocked, whatever the mode and the
    attachment, issues no backend call and appends, after the user message,
    the error message "GEMINI_API_KEY is not set" with the code
    "UNKNOWN_ERROR"; the attached image, its type and the mode are
    unchanged. *)
Theorem submit_without_credential (trim : string -> string) (svc : GeminiService)
        (t_submit t_done : Z) (st : UIState) (env : Env) (tr : list Event) :
  svc = fallback_service \/ svc = direct_service ->
  has_credential env = false ->
  submit_blocked trim st = false ->
  handleSubmit trim svc t_submit t_done st env tr =
  (Return (mkUIState
             (messages st ++
              [userMessage t_submit st;
               mkMessage (number_toString t_done) assistant "GEMINI_API_KEY is not set" None
                         true (Some "UNKNOWN_ERROR")])
             "" false (selectedImage st) (imageMimeType st) (isEditingMode st)),
   tr).
Proof.
  intros Hsvc Hk Hgo.
  rewrite (handleSubmit_run trim svc t_submit t_done st env tr Hgo). cbv zeta.
  rewrite (request_reply_without_credential svc st env tr Hsvc Hk).
  cbn [show_error missing_credential_error fst snd messages input isLoading selectedImage
       imageMimeType isEditingMode kind_code str_or String.eqb Ascii.eqb Bool.eqb].
  now rewrite <- app_assoc.
Qed.

(** The example state in editing mode, without the credential. *)
Lemma submit_without_credential_witness :
  handleSubmit no_trim direct_service 1700000000000 1700000000000 editing_state
               no_credential_env [] =
  (Return (mkUIState
             (messages editing_state ++
              [userMessage 1700000000000 editing_state;
               mkMessage (number_toString 1700000000000) assistant
                         "GEMINI_API_KEY is not set" None true (Some "UNKNOWN_ERROR")])
             "" false (selectedImage editing_state) (imageMimeType editing_state)
             (isEditingMode editing_state)),
   []).
Proof.
  apply (submit_without_credential no_trim direct_service 1700000000000 1700000000000
           editing_state no_credential_env [] (or_intror eq_refl) eq_refl eq_refl).
Defined.
